(** * Tankerkoenig sensor: a shallow embedding of the two sensor modules

    The repository holds two variants of one Home Assistant sensor platform:
    - [custom_components/tankerkoenig/sensor.py], embedded in [Module Component];
    - [sensor.py] (the older layout on top of [RestData]), embedded in
      [Module Legacy].

    Python values are embedded as the JSON values the code manipulates, Python
    exceptions as an explicit result type, logging and network requests as an
    event trace, and the mutable sensor object by explicit state passing. *)

From Stdlib Require Import ZArith NArith List String Ascii Floats Lia DecimalString.
From stdpp Require Import gmap strings list fin_maps.

#[local] Set Warnings "-register-all,-inexact-float".
#[local] Open Scope Z_scope.

(** ** Python strings

    A Python [str] is a sequence of Unicode code points.  Dictionary keys are
    only ever compared for equality, so they are kept as [string]. *)

Definition pystr := list N.

Definition py (s : string) : pystr :=
  map (fun a : ascii => N_of_ascii a) (list_ascii_of_string s).

(** *** [str.title]

    [str.title] is the interpreter's [do_title] (Objects/unicodeobject.c): it
    walks the string once, remembers whether the previous code point is cased,
    and maps the current one with the full lower-case mapping when it is and
    with the full title-case mapping when it is not.  The four lookups into the
    Unicode character database are the fields of [ucd]. *)

Record ucd := {
  is_cased : N -> bool;
  is_case_ignorable : N -> bool;
  to_title_full : N -> list N;
  to_lower_full : N -> list N
}.

Section Title.
Variable U : ucd.

Fixpoint skip_case_ignorable (l : list N) : list N :=
  match l with
  | [] => []
  | c :: l' => if is_case_ignorable U c then skip_case_ignorable l' else l
  end.

(** [handle_capital_sigma]: U+03A3 lowers to the final sigma U+03C2 when it
    follows a cased letter and is not followed by one (case-ignorable code
    points skipped on both sides), and to U+03C3 otherwise.  [before] is the
    part of the string left of the sigma, nearest code point first. *)
Definition handle_capital_sigma (before after : list N) : N :=
  let final_sigma :=
    match skip_case_ignorable before with
    | [] => false
    | c :: _ => is_cased U c
    end in
  let final_sigma :=
    if final_sigma then
      match skip_case_ignorable after with
      | [] => true
      | c :: _ => negb (is_cased U c)
      end
    else false in
  if final_sigma then 962%N else 963%N.

Definition lower_ucs4 (before : list N) (c : N) (after : list N) : list N :=
  if (c =? 931)%N then [handle_capital_sigma before after]
  else to_lower_full U c.

Fixpoint do_title (before : list N) (previous_is_cased : bool) (s : list N)
  : list N :=
  match s with
  | [] => []
  | c :: rest =>
      (if previous_is_cased then lower_ucs4 before c rest
       else to_title_full U c)
      ++ do_title (c :: before) (is_cased U c) rest
  end.

Definition title (s : pystr) : pystr := do_title [] false s.
End Title.

(** An excerpt of the Unicode 14 character database: the ASCII letters, the
    German letters, and the Greek code points met below, with the values the
    database gives them.  A code point that is not listed is treated as
    uncased and mapped to itself; the examples use listed code points only. *)

Definition ascii_upper (c : N) : bool := ((65 <=? c) && (c <=? 90))%N.
Definition ascii_lower (c : N) : bool := ((97 <=? c) && (c <=? 122))%N.

Definition excerpt_cased (c : N) : bool :=
  ascii_upper c || ascii_lower c
  || bool_decide (c ∈ [196; 214; 220; 223; 228; 246; 252;
                       837; 913; 921; 931; 945; 953; 962; 963; 8119]%N).

Definition excerpt_case_ignorable (c : N) : bool :=
  bool_decide (c ∈ [39; 46; 58; 94; 96; 168; 173; 175; 180; 183; 184;
                    834; 837]%N).

Definition excerpt_to_title (c : N) : list N :=
  if ascii_lower c then [c - 32]%N
  else match c with
       | 223 => [83; 115]          (* ß -> Ss *)
       | 228 => [196] | 246 => [214] | 252 => [220]
       | 837 => [921]              (* U+0345 -> U+0399 *)
       | 945 => [913] | 953 => [921]
       | 962 => [931] | 963 => [931]
       | 8119 => [913; 834; 837]   (* U+1FB7 -> U+0391 U+0342 U+0345 *)
       | _ => [c]
       end%N.

Definition excerpt_to_lower (c : N) : list N :=
  if ascii_upper c then [c + 32]%N
  else match c with
       | 196 => [228] | 214 => [246] | 220 => [252]
       | 913 => [945] | 921 => [953] | 931 => [963]
       | _ => [c]
       end%N.

Definition unicode_excerpt : ucd :=
  {| is_cased := excerpt_cased;
     is_case_ignorable := excerpt_case_ignorable;
     to_title_full := excerpt_to_title;
     to_lower_full := excerpt_to_lower |}.

(** A database agrees with ASCII when, below 128, exactly the letters are
    cased and the mappings are the ASCII ones. *)
Definition ascii_compatible (U : ucd) : Prop :=
  forall c : N, (c < 128)%N ->
    is_cased U c = (ascii_upper c || ascii_lower c)
    /\ to_title_full U c = [if ascii_lower c then c - 32 else c]%N
    /\ to_lower_full U c = [if ascii_upper c then c + 32 else c]%N.

Example title_aral : title unicode_excerpt (py "aral") = py "Aral".
Proof. reflexivity. Qed.

Example title_two_words :
  title unicode_excerpt (py "am alten BAHNHOF 3a") = py "Am Alten Bahnhof 3A".
Proof. reflexivity. Qed.

Example title_sharp_s :
  title unicode_excerpt (py "hauptstra" ++ [223; 101]%N)
  = py "Hauptstra" ++ [223; 101]%N.
Proof. reflexivity. Qed.

(** ** Python values

    The values the code handles are what [json] decoding produces, plus the
    strings the code builds itself.  [JNull] is Python's [None]. *)

Inductive json : Type :=
| JNull
| JBool (b : bool)
| JInt (z : Z)
| JFloat (f : float)
| JStr (s : pystr)
| JList (l : list json)
| JObj (m : gmap string json).

(** Truth value testing, as [if x:] does it. *)
Definition truthy (v : json) : bool :=
  match v with
  | JNull => false
  | JBool b => b
  | JInt z => negb (z =? 0)
  | JFloat f => negb (PrimFloat.eqb f 0%float)
  | JStr s => match s with [] => false | _ :: _ => true end
  | JList l => match l with [] => false | _ :: _ => true end
  | JObj m => match map_to_list m with [] => false | _ :: _ => true end
  end.

Inductive pykey := KStr (k : string) | KInt (i : Z).

(** The exception classes the code can meet.  [JSONDecodeError true] is
    [requests.exceptions.JSONDecodeError], which is both a [RequestException]
    and a [ValueError]; [JSONDecodeError false] is [json.JSONDecodeError], a
    [ValueError] only. *)
Inductive exc :=
| KeyError (k : pykey)
| IndexError
| TypeError
| AttributeError
| ValueError
| JSONDecodeError (from_requests : bool)
| RequestException
| HTTPError.

Definition isinstance_RequestException (e : exc) : bool :=
  match e with
  | RequestException | HTTPError | JSONDecodeError true => true
  | _ => false
  end.

Definition isinstance_ValueError (e : exc) : bool :=
  match e with
  | ValueError | JSONDecodeError _ => true
  | _ => false
  end.

Definition isinstance_KeyError (e : exc) : bool :=
  match e with
  | KeyError _ => true
  | _ => false
  end.

Inductive result (A : Type) :=
| Returned (a : A)
| Raised (e : exc).
Arguments Returned {A} a.
Arguments Raised {A} e.

(** Sequence indexing with Python's negative indices. *)
Definition py_index {A} (l : list A) (i : Z) : option A :=
  if 0 <=? i then l !! Z.to_nat i
  else if 0 <=? Z.of_nat (length l) + i then l !! Z.to_nat (Z.of_nat (length l) + i)
  else None.

(** [v[k]].  The keys of a decoded JSON object are strings, so an integer
    subscript on one is a [KeyError]. *)
Definition getitem (v : json) (k : pykey) : result json :=
  match v, k with
  | JObj m, KStr s =>
      match m !! s with Some x => Returned x | None => Raised (KeyError k) end
  | JObj _, KInt _ => Raised (KeyError k)
  | JList l, KInt i =>
      match py_index l i with Some x => Returned x | None => Raised IndexError end
  | JStr s, KInt i =>
      match py_index s i with Some c => Returned (JStr [c]) | None => Raised IndexError end
  | _, _ => Raised TypeError
  end.

(** [a + b] where [a] is already known to be a [str]. *)
Definition str_add (a : pystr) (b : json) : result json :=
  match b with
  | JStr s => Returned (JStr (a ++ s))
  | _ => Raised TypeError
  end.

(** ** Effects: state, event trace, exceptions *)

Inductive level := DEBUG | WARNING | ERROR.

(** What [requests.get] and [RestData] are asked to do. *)
Record request := {
  req_method : pystr;
  req_url : pystr;
  req_verify : bool;
  req_timeout : option Z
}.

Inductive event :=
| Log (lvl : level) (fmt : string)
| HttpRequest (r : request).

Definition M (S A : Type) : Type := S -> S * list event * result A.

Definition ret {S A} (a : A) : M S A := fun s => (s, [], Returned a).

Definition bind {S A B} (m : M S A) (k : A -> M S B) : M S B :=
  fun s =>
    match m s with
    | (s1, t1, Returned a) =>
        match k a s1 with (s2, t2, r) => (s2, t1 ++ t2, r) end
    | (s1, t1, Raised e) => (s1, t1, Raised e)
    end.

Definition raise {S A} (e : exc) : M S A := fun s => (s, [], Raised e).
Definition emit {S} (ev : event) : M S unit := fun s => (s, [ev], Returned tt).
Definition get {S} : M S S := fun s => (s, [], Returned s).
Definition modify {S} (f : S -> S) : M S unit := fun s => (f s, [], Returned tt).

Definition lift {S A} (r : result A) : M S A :=
  match r with Returned a => ret a | Raised e => raise e end.

(** [try: m  except <the exceptions h accepts>: h e].  An exception [h] does
    not accept propagates. *)
Definition try_except {S A} (m : M S A) (h : exc -> option (M S A)) : M S A :=
  fun s =>
    match m s with
    | (s1, t1, Raised e) =>
        match h e with
        | Some k => match k s1 with (s2, t2, r) => (s2, t1 ++ t2, r) end
        | None => (s1, t1, Raised e)
        end
    | done => done
    end.

(** Run a computation on a component of the state. *)
Definition zoom {S T A} (proj : S -> T) (inj : T -> S -> S) (m : M T A) : M S A :=
  fun s => match m (proj s) with (t, tr, r) => (inj t s, tr, r) end.

Notation "'do' x <- m ; k" := (bind m (fun x => k))
  (at level 10, x name, m at level 100, k at level 200,
   format "'[v' 'do'  x  <-  m ; '/' k ']'").
Notation "'run' m ; k" := (bind m (fun _ => k))
  (at level 10, m at level 100, k at level 200,
   format "'[v' 'run'  m ; '/' k ']'").

Definition final {S A} (o : S * list event * result A) : S := o.1.1.
Definition trace {S A} (o : S * list event * result A) : list event := o.1.2.
Definition outcome {S A} (o : S * list event * result A) : result A := o.2.

Definition is_request (ev : event) : bool :=
  match ev with HttpRequest _ => true | Log _ _ => false end.
Definition is_log_at (l : level) (ev : event) : bool :=
  match ev with
  | Log l' _ => match l, l' with
                | DEBUG, DEBUG | WARNING, WARNING | ERROR, ERROR => true
                | _, _ => false
                end
  | HttpRequest _ => false
  end.
Definition requests_of (t : list event) : list request :=
  omap (fun ev => match ev with HttpRequest r => Some r | Log _ _ => None end) t.
Definition logged_at (l : level) (t : list event) : bool := existsb (is_log_at l) t.

(** ** Constants shared by the two modules *)

(** [timedelta(minutes=10)], in microseconds (the resolution of [datetime]). *)
Definition MIN_TIME_BETWEEN_UPDATES : Z := 10 * 60 * 1000000.

Definition FUEL_TYPES : list pystr := [py "diesel"; py "e5"; py "e10"].

Definition DEFAULT_NAME : pystr := py "Tankerkoenig".

Definition ATTR_BRAND : string := "brand".
Definition ATTR_ADDRESS : string := "address".
Definition ATTR_STATUS : string := "status".
(** From [homeassistant.const]. *)
Definition ATTR_ATTRIBUTION : string := "attribution".
Definition ATTR_LATITUDE : string := "latitude".
Definition ATTR_LONGITUDE : string := "longitude".

Definition ICON : pystr := py "mdi:gas-station".
(** "Data provided by Tankerkönig"; 246 is the o-umlaut. *)
Definition ATTRIBUTION : pystr :=
  py "Data provided by Tankerk" ++ [246%N] ++ py "nig".

(** Numbers of the configuration: [int] or [float]. *)
Inductive number := NumInt (z : Z) | NumFloat (f : float).

(** [str(n)], as an f-string field and [str.format] produce it.  [float_repr]
    is [str] of a [float] (shortest round-trip notation), not modelled. *)
Definition format_number (float_repr : float -> pystr) (n : number) : pystr :=
  match n with
  | NumInt z => py (DecimalString.NilZero.string_of_int (Z.to_int z))
  | NumFloat f => float_repr f
  end.

(** ** The part of [update] both files share

    Lines 163-174 of custom_components/tankerkoenig/sensor.py and lines
    127-138 of sensor.py are the same statements.  [sensor_fields] names the
    two assignments they make on [self]. *)

Record sensor_fields (S : Type) := {
  set_state : json -> S -> S;               (* self._state = v *)
  set_attribute : string -> json -> S -> S  (* self._attributes[k] = v *)
}.
Arguments set_state {S} _ _ _.
Arguments set_attribute {S} _ _ _ _.

Section Populate.
Variable U : ucd.
Context {S : Type} (F : sensor_fields S).

(** [v.title()] *)
Definition str_title (v : json) : result pystr :=
  match v with
  | JStr s => Returned (title U s)
  | _ => Raised AttributeError
  end.

(** [stations[0][k]] *)
Definition first_station (stations : json) (k : string) : M S json :=
  do s0 <- lift (getitem stations (KInt 0));
  lift (getitem s0 (KStr k)).

Definition populate (stations : json) : M S unit :=
  do price <- first_station stations "price";
  run modify (set_state F price);
  do brand <- first_station stations "brand";
  do brand_t <- lift (str_title brand);
  run modify (set_attribute F ATTR_BRAND (JStr brand_t));
  do street <- first_station stations "street";
  do street_t <- lift (str_title street);
  do house <- first_station stations "houseNumber";
  do address <- lift (str_add street_t house);
  run modify (set_attribute F ATTR_ADDRESS address);
  do is_open <- first_station stations "isOpen";
  run modify (set_attribute F ATTR_STATUS
                (JStr (if truthy is_open then py "open" else py "closed")));
  do lat <- first_station stations "lat";
  run modify (set_attribute F ATTR_LATITUDE lat);
  do lng <- first_station stations "lng";
  run modify (set_attribute F ATTR_LONGITUDE lng);
  modify (set_attribute F ATTR_ATTRIBUTION (JStr ATTRIBUTION)).
End Populate.

(** ** [homeassistant.util.Throttle]

    The decorator keeps, on the decorated object, the time of the last call
    that ran the method.  A call runs the method when there was no such call
    or when more than [min_time] has passed since, and then records the time
    at which the method returned; otherwise it returns [None] without running
    it.  When the method raises, the exception propagates and no time is
    recorded.  (The decorator's lock only matters to concurrent callers.)
    [now_check] and [now_done] are the two readings of [utcnow()]. *)

Record throttled (S : Type) := { host : S; last_call : option Z }.
Arguments host {S} _.
Arguments last_call {S} _.

Definition Throttle {S} (min_time : Z) (method : M S unit)
    (now_check now_done : Z) : M (throttled S) unit :=
  do th <- get;
  let force := match last_call th with None => true | Some _ => false end in
  if force
     || match last_call th with
        | Some t => min_time <? now_check - t
        | None => false
        end
  then
    run zoom host (fun h th => {| host := h; last_call := last_call th |}) method;
    modify (fun th => {| host := host th; last_call := Some now_done |})
  else ret tt.

(** ** custom_components/tankerkoenig/sensor.py *)

Module Component.

Definition DEFAULT_RADIUS : number := NumFloat 1.5%float.

(** [SensorDeviceClass.MONETARY] and [CURRENCY_EURO] of the host. *)
Definition MONETARY : pystr := py "monetary".
Definition CURRENCY_EURO : pystr := [8364%N].

(** What the network does with a request: [requests.get] raises a
    [RequestException] (no connection, timeout, ...), or hands back a
    response with its status code and with what [response.json()] does on
    its body. *)
Inductive http_reply :=
| Failed
| Response (status_code : Z) (json_body : result json).

Record TankerkoenigApi := { _api_key : pystr }.

Record TankerkoenigSensor := {
  _api : TankerkoenigApi;
  _name : pystr;
  _latitude : number;
  _longitude : number;
  _radius : number;
  _fuel_type : pystr;
  _state : json;
  _attributes : gmap string json
}.

Definition with_state (v : json) (self : TankerkoenigSensor) :=
  {| _api := _api self; _name := _name self; _latitude := _latitude self;
     _longitude := _longitude self; _radius := _radius self;
     _fuel_type := _fuel_type self;
     _state := v; _attributes := _attributes self |}.

Definition with_attributes (a : gmap string json) (self : TankerkoenigSensor) :=
  {| _api := _api self; _name := _name self; _latitude := _latitude self;
     _longitude := _longitude self; _radius := _radius self;
     _fuel_type := _fuel_type self;
     _state := _state self; _attributes := a |}.

Definition fields : sensor_fields TankerkoenigSensor :=
  {| set_state := with_state;
     set_attribute := fun k v self =>
       with_attributes (<[k := v]> (_attributes self)) self |}.

(** The configuration after [PLATFORM_SCHEMA] has validated it. *)
Record config := {
  CONF_API_KEY : pystr;
  CONF_FUEL_TYPE : pystr;
  CONF_NAME : pystr;
  CONF_RADIUS : number
}.

Section WithPython.
Variable U : ucd.
Variable float_repr : float -> pystr.
Variable net : request -> http_reply.
Abbreviation format_number := (format_number float_repr).

Definition requests_get {S} (url : pystr) (verify : bool) (timeout : Z)
  : M S (Z * result json) :=
  let r := {| req_method := py "GET"; req_url := url;
              req_verify := verify; req_timeout := Some timeout |} in
  run emit (HttpRequest r);
  match net r with
  | Failed => raise RequestException
  | Response code body => ret (code, body)
  end.

(** [Response.raise_for_status]: an [HTTPError] for 4xx and 5xx. *)
Definition raise_for_status {S} (response : Z * result json) : M S unit :=
  if (400 <=? response.1) && (response.1 <? 600) then raise HTTPError
  else ret tt.

(** The f-string that [get_stations] binds to [resource]. *)
Definition resource (self : TankerkoenigApi)
    (latitude longitude radius : number) (fuel_type : pystr) : pystr :=
  py "https://creativecommons.tankerkoenig.de/json/list.php"
  ++ py "?apikey=" ++ _api_key self
  ++ py "&lat=" ++ format_number latitude
  ++ py "&lng=" ++ format_number longitude
  ++ py "&rad=" ++ format_number radius
  ++ py "&type=" ++ fuel_type
  ++ py "&sort=price".

Definition get_stations {S} (self : TankerkoenigApi)
    (latitude longitude radius : number) (fuel_type : pystr) : M S json :=
  let resource := resource self latitude longitude radius fuel_type in
  try_except
    (do response <- requests_get resource true 10;
     run raise_for_status response;
     lift response.2)
    (fun ex =>
       if isinstance_RequestException ex then
         Some (run emit (Log ERROR "Error fetching data: %s failed with %s");
               ret JNull)
       else if isinstance_ValueError ex then
         Some (run emit (Log ERROR "Error parsing data: %s failed with %s");
               ret JNull)
       else None).

Definition new_sensor (api : TankerkoenigApi) (name : pystr)
    (latitude longitude radius : number) (fuel_type : pystr) :=
  {| _api := api; _name := name; _latitude := latitude;
     _longitude := longitude; _radius := radius; _fuel_type := fuel_type;
     _state := JNull; _attributes := ∅ |}.

Definition setup_platform (hass_latitude hass_longitude : number)
    (cfg : config) : list TankerkoenigSensor :=
  let api_key := CONF_API_KEY cfg in
  let fuel_type := CONF_FUEL_TYPE cfg in
  let name := CONF_NAME cfg in
  let radius := CONF_RADIUS cfg in
  let latitude := hass_latitude in
  let longitude := hass_longitude in
  let api := {| _api_key := api_key |} in
  [new_sensor api name latitude longitude radius fuel_type].

Definition name (self : TankerkoenigSensor) : pystr := _name self.
Definition device_class (self : TankerkoenigSensor) : pystr := MONETARY.
Definition unit_of_measurement (self : TankerkoenigSensor) : pystr := CURRENCY_EURO.
Definition icon (self : TankerkoenigSensor) : pystr := ICON.
Definition state (self : TankerkoenigSensor) : json := _state self.
Definition extra_state_attributes (self : TankerkoenigSensor) := _attributes self.

(** The body of [update], without its decorator. *)
Definition update_body : M TankerkoenigSensor unit :=
  run modify (with_state JNull);
  run modify (with_attributes ∅);
  do self <- get;
  do result <- get_stations (_api self) (_latitude self) (_longitude self)
                 (_radius self) (_fuel_type self);
  do stations <-
    (if truthy result then
       try_except (lift (getitem result (KStr "stations")))
         (fun ex =>
            if isinstance_KeyError ex then
              Some (run emit (Log ERROR
                      "Erroneous result found when expecting list of stations: %s");
                    ret JNull)
            else None)
     else
       run emit (Log ERROR "Empty result found when expecting list of stations");
       ret JNull);
  if truthy stations then populate U fields stations else ret tt.

(** [update], as decorated with [@Throttle(MIN_TIME_BETWEEN_UPDATES)]. *)
Definition update (now_check now_done : Z)
  : M (throttled TankerkoenigSensor) unit :=
  Throttle MIN_TIME_BETWEEN_UPDATES update_body now_check now_done.
End WithPython.
End Component.

(** ** sensor.py *)

Module Legacy.

Definition DEFAULT_RADIUS : number := NumFloat 1.5%float.
Definition UNIT_OF_MEASUREMENT : pystr := [8364%N].

(** A response body as [RestData] stores it, together with what
    [json.loads] does on that text. *)
Record body := { text : pystr; json_loads : result json }.

(** Modelled from the spec: the host's [RestData] is not in src/; every
    fetch has a "request timeout fixed at 10 seconds", which for this file is
    the default of the constructor's [timeout] argument. *)
Definition DEFAULT_TIMEOUT : Z := 10.

(** The host's [RestData("GET", endpoint, None, None, None, True)]: the
    constructor arguments the file passes (method, resource, verify_ssl; the
    three [None] are auth, headers and payload), the timeout it leaves to its
    default, and the [data] attribute that [RestData.update] refreshes: the
    body text, or [None] when the request failed. *)
Record RestData := {
  _method : pystr;
  _resource : pystr;
  _verify_ssl : bool;
  _timeout : Z;
  data : option body
}.

Record TankerkoenigSensor := {
  rest : RestData;
  _name : pystr;
  _state : json;
  _attributes : gmap string json
}.

Definition with_state (v : json) (self : TankerkoenigSensor) :=
  {| rest := rest self; _name := _name self;
     _state := v; _attributes := _attributes self |}.

Definition with_attributes (a : gmap string json) (self : TankerkoenigSensor) :=
  {| rest := rest self; _name := _name self;
     _state := _state self; _attributes := a |}.

Definition with_rest (r : RestData) (self : TankerkoenigSensor) :=
  {| rest := r; _name := _name self;
     _state := _state self; _attributes := _attributes self |}.

Definition fields : sensor_fields TankerkoenigSensor :=
  {| set_state := with_state;
     set_attribute := fun k v self =>
       with_attributes (<[k := v]> (_attributes self)) self |}.

Record config := {
  CONF_API_KEY : pystr;
  CONF_FUEL_TYPE : pystr;
  CONF_NAME : pystr;
  CONF_RADIUS : number
}.

Section WithPython.
Variable U : ucd.
Variable float_repr : float -> pystr.
Variable net : request -> option body.
Abbreviation format_number := (format_number float_repr).

(** [RestData.update]: send the request the object was built for and keep
    the body. *)
Definition RestData_update : M RestData unit :=
  do self <- get;
  let r := {| req_method := _method self; req_url := _resource self;
              req_verify := _verify_ssl self;
              req_timeout := Some (_timeout self) |} in
  run emit (HttpRequest r);
  modify (fun self => {| _method := _method self; _resource := _resource self;
                         _verify_ssl := _verify_ssl self;
                         _timeout := _timeout self; data := net r |}).

Definition new_sensor (rest : RestData) (name : pystr) :=
  {| rest := rest; _name := name; _state := JNull; _attributes := ∅ |}.

Definition setup_platform (hass_latitude hass_longitude : number)
    (cfg : config) : list TankerkoenigSensor :=
  let api_key := CONF_API_KEY cfg in
  let fuel_type := CONF_FUEL_TYPE cfg in
  let name := CONF_NAME cfg in
  let radius := CONF_RADIUS cfg in
  let latitude := hass_latitude in
  let longitude := hass_longitude in
  let endpoint :=
    py "https://creativecommons.tankerkoenig.de/json/list.php"
    ++ py "?lat=" ++ format_number latitude
    ++ py "&lng=" ++ format_number longitude
    ++ py "&rad=" ++ format_number radius
    ++ py "&sort=price"
    ++ py "&type=" ++ fuel_type
    ++ py "&apikey=" ++ api_key in
  let rest := {| _method := py "GET"; _resource := endpoint;
                 _verify_ssl := true; _timeout := DEFAULT_TIMEOUT;
                 data := None |} in
  [new_sensor rest name].

Definition name (self : TankerkoenigSensor) : pystr := _name self.
Definition unit_of_measurement (self : TankerkoenigSensor) : pystr :=
  UNIT_OF_MEASUREMENT.
Definition icon (self : TankerkoenigSensor) : pystr := ICON.
Definition state (self : TankerkoenigSensor) : json := _state self.
Definition device_state_attributes (self : TankerkoenigSensor) :=
  _attributes self.

(** [if result:] on [self.rest.data]: [None] and the empty text are false. *)
Definition truthy_data (result : option body) : bool :=
  match result with
  | None => false
  | Some b => match text b with [] => false | _ :: _ => true end
  end.

(** The body of [update], without its decorator. *)
Definition update_body : M TankerkoenigSensor unit :=
  run modify (with_state JNull);
  run modify (with_attributes ∅);
  run zoom rest with_rest RestData_update;
  do self <- get;
  let result := data (rest self) in
  do stations <-
    (if truthy_data result then
       try_except
         (do json_result <-
            lift (match result with
                  | Some b => json_loads b
                  | None => Raised TypeError
                  end);
          do ok <- lift (getitem json_result (KStr "ok"));
          if truthy ok then
            do stations <- lift (getitem json_result (KStr "stations"));
            run emit (Log DEBUG "Received stations: %s");
            ret stations
          else ret (JList []))
         (fun ex =>
            if isinstance_ValueError ex then
              Some (run emit (Log WARNING "REST result could not be parsed as JSON");
                    run emit (Log DEBUG "Erroneous JSON: %s");
                    ret (JList []))
            else None)
     else
       run emit (Log WARNING "Empty reply found when expecting JSON data");
       ret (JList []));
  if truthy stations then populate U fields stations else ret tt.

(** [update], as decorated with [@Throttle(MIN_TIME_BETWEEN_UPDATES)]. *)
Definition update (now_check now_done : Z)
  : M (throttled TankerkoenigSensor) unit :=
  Throttle MIN_TIME_BETWEEN_UPDATES update_body now_check now_done.
End WithPython.
End Legacy.


(** ** Vocabulary of the statements *)

(** A station record as the code reads it: the seven keys, with the three that
    [update] treats as strings holding strings. *)
Record station := {
  price : json;
  brand : pystr;
  street : pystr;
  houseNumber : pystr;
  isOpen : json;
  lat : json;
  lng : json
}.

(** The JSON object [r] carries the seven keys of [st] (and maybe others). *)
Definition describes (r : gmap string json) (st : station) : Prop :=
  r !! "price" = Some (price st)
  /\ r !! "brand" = Some (JStr (brand st))
  /\ r !! "street" = Some (JStr (street st))
  /\ r !! "houseNumber" = Some (JStr (houseNumber st))
  /\ r !! "isOpen" = Some (isOpen st)
  /\ r !! "lat" = Some (lat st)
  /\ r !! "lng" = Some (lng st).

(** The attribute dictionary of a sensor that shows [st]. *)
Definition attributes_of (U : ucd) (st : station) : gmap string json :=
  list_to_map
    [("brand", JStr (title U (brand st)));
     ("address", JStr (title U (street st) ++ houseNumber st));
     ("status", JStr (if truthy (isOpen st) then py "open" else py "closed"));
     ("latitude", lat st);
     ("longitude", lng st);
     ("attribution", JStr ATTRIBUTION)].

(** What [get_stations] hands to [update] for a sensor: the call does not
    touch the sensor, so it is run here on the unit state. *)
Definition fetch_result (float_repr : float -> pystr)
    (net : request -> Component.http_reply)
    (self : Component.TankerkoenigSensor) : result json :=
  outcome (Component.get_stations float_repr net (Component._api self)
             (Component._latitude self) (Component._longitude self)
             (Component._radius self) (Component._fuel_type self) tt).

(** The request [get_stations] sends for a sensor. *)
Definition fetch_request (float_repr : float -> pystr)
    (self : Component.TankerkoenigSensor) : request :=
  {| req_method := py "GET";
     req_url := Component.resource float_repr (Component._api self)
                  (Component._latitude self) (Component._longitude self)
                  (Component._radius self) (Component._fuel_type self);
     req_verify := true;
     req_timeout := Some 10 |}.

(** The request a legacy sensor's [RestData] sends. *)
Definition rest_request (self : Legacy.TankerkoenigSensor) : request :=
  {| req_method := Legacy._method (Legacy.rest self);
     req_url := Legacy._resource (Legacy.rest self);
     req_verify := Legacy._verify_ssl (Legacy.rest self);
     req_timeout := Some (Legacy._timeout (Legacy.rest self)) |}.

(** The state of a sensor after the seven assignments of [populate]. *)
Definition shown {S} (U : ucd) (F : sensor_fields S) (st : station) (s : S) : S :=
  set_attribute F ATTR_ATTRIBUTION (JStr ATTRIBUTION)
    (set_attribute F ATTR_LONGITUDE (lng st)
       (set_attribute F ATTR_LATITUDE (lat st)
          (set_attribute F ATTR_STATUS
             (JStr (if truthy (isOpen st) then py "open" else py "closed"))
             (set_attribute F ATTR_ADDRESS
                (JStr (title U (street st) ++ houseNumber st))
                (set_attribute F ATTR_BRAND (JStr (title U (brand st)))
                   (set_state F (price st) s)))))).

(** State and attributes agree: both empty, or both from one station. *)
Definition pair_consistent (U : ucd) (state : json)
    (attributes : gmap string json) : Prop :=
  (state = JNull /\ attributes = ∅)
  \/ exists st, state = price st /\ attributes = attributes_of U st.

(** A step of a computation keeps [R] when its final state is [R]-related to
    its initial state, whether it returns or raises. *)
Definition preserves {S A} (R : S -> S -> Prop) (m : M S A) : Prop :=
  forall s, R s (final (m s)).

(** The configuration of a sensor, which [update] is not to touch. *)
Definition same_config (s s' : Component.TankerkoenigSensor) : Prop :=
  Component._api s' = Component._api s
  /\ Component._name s' = Component._name s
  /\ Component._latitude s' = Component._latitude s
  /\ Component._longitude s' = Component._longitude s
  /\ Component._radius s' = Component._radius s
  /\ Component._fuel_type s' = Component._fuel_type s.

Definition same_endpoint (s s' : Legacy.TankerkoenigSensor) : Prop :=
  Legacy._name s' = Legacy._name s
  /\ Legacy._method (Legacy.rest s') = Legacy._method (Legacy.rest s)
  /\ Legacy._resource (Legacy.rest s') = Legacy._resource (Legacy.rest s)
  /\ Legacy._verify_ssl (Legacy.rest s') = Legacy._verify_ssl (Legacy.rest s)
  /\ Legacy._timeout (Legacy.rest s') = Legacy._timeout (Legacy.rest s).

(** The throttle lets a call at [now] through. *)
Definition lets_through {S} (th : throttled S) (now : Z) : Prop :=
  match last_call th with
  | None => True
  | Some t => MIN_TIME_BETWEEN_UPDATES < now - t
  end.

(** ** Sample data *)

(** The station of the specification's example. *)
Definition aral : station :=
  {| price := JFloat 1.679%float;
     brand := py "aral";
     street := py "hauptstrasse";
     houseNumber := py "12";
     isOpen := JBool true;
     lat := JFloat 50.1%float;
     lng := JFloat 8.6%float |}.

Definition aral_record : gmap string json :=
  list_to_map
    [("id", JStr (py "474e5046-deaf-4f9b-9a32-9797b778f047"));
     ("price", price aral); ("brand", JStr (brand aral));
     ("street", JStr (street aral)); ("houseNumber", JStr (houseNumber aral));
     ("isOpen", isOpen aral); ("lat", lat aral); ("lng", lng aral)].

Definition envelope (ok : bool) (stations : list json) : gmap string json :=
  list_to_map [("ok", JBool ok); ("stations", JList stations)].

(** A JSON string literal: the text between two quotation marks. *)
Definition quoted (s : string) : pystr := [34%N] ++ py s ++ [34%N].

Definition aral_text : pystr :=
  py "{" ++ quoted "id" ++ py ": "
  ++ quoted "474e5046-deaf-4f9b-9a32-9797b778f047" ++ py ", "
  ++ quoted "price" ++ py ": 1.679, "
  ++ quoted "brand" ++ py ": " ++ quoted "aral" ++ py ", "
  ++ quoted "street" ++ py ": " ++ quoted "hauptstrasse" ++ py ", "
  ++ quoted "houseNumber" ++ py ": " ++ quoted "12" ++ py ", "
  ++ quoted "isOpen" ++ py ": true, "
  ++ quoted "lat" ++ py ": 50.1, " ++ quoted "lng" ++ py ": 8.6}".

Definition envelope_text (ok : bool) (stations : pystr) : pystr :=
  py "{" ++ quoted "ok" ++ py (if ok then ": true, " else ": false, ")
  ++ quoted "stations" ++ py ": [" ++ stations ++ py "]}".

(** A reply of the provider as [RestData] keeps it. *)
Definition reply_body (ok : bool) (stations_text : pystr) (stations : list json)
  : Legacy.body :=
  {| Legacy.text := envelope_text ok stations_text;
     Legacy.json_loads := Returned (JObj (envelope ok stations)) |}.

(** [str] of the three floats of the sample configuration. *)
Definition sample_float_repr (f : float) : pystr :=
  if PrimFloat.eqb f 50.1%float then py "50.1"
  else if PrimFloat.eqb f 8.6%float then py "8.6"
  else py "1.5".

Definition sample_component : Component.TankerkoenigSensor :=
  Component.new_sensor {| Component._api_key := py "00000000-0000-0000-0000-000000000002" |}
    DEFAULT_NAME (NumFloat 50.1%float) (NumFloat 8.6%float)
    Component.DEFAULT_RADIUS (py "e5").

Definition sample_legacy : Legacy.TankerkoenigSensor :=
  Legacy.new_sensor
    {| Legacy._method := py "GET";
       Legacy._resource :=
         py "https://creativecommons.tankerkoenig.de/json/list.php?lat=50.1&lng=8.6&rad=1.5&sort=price&type=e5&apikey=00000000-0000-0000-0000-000000000002";
       Legacy._verify_ssl := true;
       Legacy._timeout := Legacy.DEFAULT_TIMEOUT;
       Legacy.data := None |}
    DEFAULT_NAME.

(** Networks that answer every request the same way. *)
Definition answering (j : json) : request -> Component.http_reply :=
  fun _ => Component.Response 200 (Returned j).

Definition storing (b : Legacy.body) : request -> option Legacy.body :=
  fun _ => Some b.

(** A step keeps the component [f] of the state. *)
Definition kept {S T} (f : S -> T) (s s' : S) : Prop := f s' = f s.

(** The four ways a fetch can go, with what [get_stations] is to return and
    whether it is to log an error: no reply at all, a 4xx or 5xx status, a
    body that is not JSON, and a parsed body. *)
Inductive fetch_case : Component.http_reply -> json -> bool -> Prop :=
| transport_failure :
    fetch_case Component.Failed JNull true
| error_status code body :
    400 <= code < 600 ->
    fetch_case (Component.Response code body) JNull true
| parse_failure code from_requests :
    fetch_case (Component.Response code (Raised (JSONDecodeError from_requests)))
      JNull true
| parsed_body code j :
    ~ 400 <= code < 600 ->
    fetch_case (Component.Response code (Returned j)) j false.



(** The provider's answer to a bad request: "ok" false and a message. *)
Definition error_envelope : gmap string json :=
  list_to_map [("ok", JBool false); ("message", JStr (py "apikey nicht angegeben"))].

Definition error_body : Legacy.body :=
  {| Legacy.text :=
       py "{" ++ quoted "ok" ++ py ": false, " ++ quoted "message" ++ py ": "
       ++ quoted "apikey nicht angegeben" ++ py "}";
     Legacy.json_loads := Returned (JObj error_envelope) |}.

(** ** The provider's query *)

Definition ENDPOINT : pystr :=
  py "https://creativecommons.tankerkoenig.de/json/list.php".

(** A query string: [name=value] pairs joined by [&] (no escaping). *)
Fixpoint query_string (params : list (string * pystr)) : pystr :=
  match params with
  | [] => []
  | [(k, v)] => py k ++ py "=" ++ v
  | (k, v) :: rest => py k ++ py "=" ++ v ++ py "&" ++ query_string rest
  end.

(** The six parameters of a list query. *)
Definition list_query (api_key latitude longitude radius fuel_type : pystr)
  : list (string * pystr) :=
  [("apikey", api_key); ("lat", latitude); ("lng", longitude);
   ("rad", radius); ("type", fuel_type); ("sort", py "price")].

Definition get_request (url : pystr) : request :=
  {| req_method := py "GET"; req_url := url;
     req_verify := true; req_timeout := Some 10 |}.

(** A computation that sends no request. *)
Definition sends_nothing {S A} (m : M S A) : Prop :=
  forall s, requests_of (trace (m s)) = [].

(** ** Title-casing on ASCII *)

Definition ascii_cased (c : N) : bool := ascii_upper c || ascii_lower c.

Definition ascii_title_char (previous_is_cased : bool) (c : N) : N :=
  if previous_is_cased then (if ascii_upper c then c + 32 else c)%N
  else (if ascii_lower c then c - 32 else c)%N.

Fixpoint ascii_title (previous_is_cased : bool) (s : list N) : list N :=
  match s with
  | [] => []
  | c :: rest =>
      ascii_title_char previous_is_cased c :: ascii_title (ascii_cased c) rest
  end.

(** ** The two halves of [update] *)

(** What is left of [update] once the fetch has returned [result]. *)
Definition after_fetch (U : ucd) (result : json)
  : M Component.TankerkoenigSensor unit :=
  do stations <-
    (if truthy result then
       try_except (lift (getitem result (KStr "stations")))
         (fun ex =>
            if isinstance_KeyError ex then
              Some (run emit (Log ERROR
                      "Erroneous result found when expecting list of stations: %s");
                    ret JNull)
            else None)
     else
       run emit (Log ERROR "Empty result found when expecting list of stations");
       ret JNull);
  if truthy stations then populate U Component.fields stations else ret tt.

(** The sensor once [update] has cleared it and [RestData.update] has stored
    the reply. *)
Definition refreshed (net : request -> option Legacy.body)
    (self : Legacy.TankerkoenigSensor) :=
  Legacy.with_rest
    {| Legacy._method := Legacy._method (Legacy.rest self);
       Legacy._resource := Legacy._resource (Legacy.rest self);
       Legacy._verify_ssl := Legacy._verify_ssl (Legacy.rest self);
       Legacy._timeout := Legacy._timeout (Legacy.rest self);
       Legacy.data := net (rest_request self) |}
    (Legacy.with_attributes ∅ (Legacy.with_state JNull self)).

(** What is left of [update] once [self.rest.data] is [result]. *)
Definition after_rest (U : ucd) (result : option Legacy.body)
  : M Legacy.TankerkoenigSensor unit :=
  do stations <-
    (if Legacy.truthy_data result then
       try_except
         (do json_result <-
            lift (match result with
                  | Some b => Legacy.json_loads b
                  | None => Raised TypeError
                  end);
          do ok <- lift (getitem json_result (KStr "ok"));
          if truthy ok then
            do stations <- lift (getitem json_result (KStr "stations"));
            run emit (Log DEBUG "Received stations: %s");
            ret stations
          else ret (JList []))
         (fun ex =>
            if isinstance_ValueError ex then
              Some (run emit (Log WARNING "REST result could not be parsed as JSON");
                    run emit (Log DEBUG "Erroneous JSON: %s");
                    ret (JList []))
            else None)
     else
       run emit (Log WARNING "Empty reply found when expecting JSON data");
       ret (JList []));
  if truthy stations then populate U Legacy.fields stations else ret tt.

(** ** Vocabulary of the further properties *)

(** [stations[0][k]] as a value: what [first_station] returns or raises. *)
Definition stations_0 (stations : json) (k : string) : result json :=
  match getitem stations (KInt 0) with
  | Returned s0 => getitem s0 (KStr k)
  | Raised e => Raised e
  end.

(** The six attribute names [update] assigns. *)
Definition attribute_names : gset string :=
  {[ ATTR_BRAND; ATTR_ADDRESS; ATTR_STATUS;
     ATTR_LATITUDE; ATTR_LONGITUDE; ATTR_ATTRIBUTION ]}.

(** What an observer of a sensor reads: the state and the attributes. *)
Definition component_reading (s : Component.TankerkoenigSensor)
  : json * gmap string json :=
  (Component.state s, Component.extra_state_attributes s).

Definition legacy_reading (s : Legacy.TankerkoenigSensor)
  : json * gmap string json :=
  (Legacy.state s, Legacy.device_state_attributes s).

(** Two computations on different states that stay in step: from related
    states they end in related states, with the same trace and outcome. *)
Definition in_step {S T A} (R : S -> T -> Prop) (m : M S A) (m' : M T A)
  : Prop :=
  forall s t, R s t ->
    R (final (m s)) (final (m' t))
    /\ trace (m s) = trace (m' t)
    /\ outcome (m s) = outcome (m' t).

(** [s.split(sep)] for a one-character separator. *)
Fixpoint split_on (sep : N) (s : pystr) : list pystr :=
  match s with
  | [] => [[]]
  | c :: rest =>
      if (c =? sep)%N then [] :: split_on sep rest
      else match split_on sep rest with
           | field :: fields => (c :: field) :: fields
           | [] => [[c]]
           end
  end.

(** How often [c] occurs in [s]. *)
Definition occurrences (c : N) (s : list N) : nat :=
  length (filter (fun x => x = c) s).

Definition ampersand : N := 38.

(** ASCII case folding, to compare texts up to the case of their letters. *)
Definition ascii_fold (c : N) : N :=
  if ascii_upper c then (c + 32)%N else c.

(** A step adds attributes under the six names only. *)
Definition adds_known_attributes {S} (get_attributes : S -> gmap string json)
    (s s' : S) : Prop :=
  dom (get_attributes s') ⊆ dom (get_attributes s) ∪ attribute_names.

(** The host's polling loop: [update] called again and again, each call with
    the network and the two clock readings it meets.  (The host catches and
    logs what a call raises and goes on.) *)
Fixpoint component_polls (U : ucd) (float_repr : float -> pystr)
    (calls : list ((request -> Component.http_reply) * Z * Z))
    (th : throttled Component.TankerkoenigSensor)
  : throttled Component.TankerkoenigSensor * list event :=
  match calls with
  | [] => (th, [])
  | (net, now_check, now_done) :: later =>
      let o := Component.update U float_repr net now_check now_done th in
      let r := component_polls U float_repr later (final o) in
      (r.1, trace o ++ r.2)
  end.

(** * Facts *)

(** ** The shared block *)

Section PopulateFacts.
Context (U : ucd) {S : Type} (F : sensor_fields S).

Lemma populate_describes (r : gmap string json) rest st (s : S) :
  describes r st ->
  populate U F (JList (JObj r :: rest)) s = (shown U F st s, [], Returned tt).
Proof.
  intros (Hp & Hb & Hs & Hh & Ho & Hla & Hln).
  unfold populate, first_station, bind, lift, modify, ret, getitem; simpl.
  rewrite Hp, Hb; simpl. rewrite Hs, Hh; simpl. rewrite Ho, Hla, Hln.
  reflexivity.
Qed.

Lemma populate_returned stations (s : S) :
  outcome (populate U F stations s) = Returned tt ->
  exists r rest st, stations = JList (JObj r :: rest) /\ describes r st.
Proof.
  unfold populate, first_station, bind, lift, modify, ret, raise, getitem,
    outcome, str_title, str_add.
  destruct stations as [| | | |s0|l|m]; simpl; try discriminate.
  - destruct (py_index s0 0); simpl; discriminate.
  - destruct l as [|x l]; simpl; try discriminate.
    destruct x as [| | | | | |r]; simpl; try discriminate.
    destruct (r !! "price") as [p|] eqn:Hp; simpl; try discriminate.
    destruct (r !! "brand") as [[| | | |b| |]|] eqn:Hb; simpl; try discriminate.
    destruct (r !! "street") as [[| | | |st| |]|] eqn:Hs; simpl; try discriminate.
    destruct (r !! "houseNumber") as [[| | | |h| |]|] eqn:Hh; simpl;
      try discriminate.
    destruct (r !! "isOpen") as [o|] eqn:Ho; simpl; try discriminate.
    destruct (r !! "lat") as [la|] eqn:Hla; simpl; try discriminate.
    destruct (r !! "lng") as [ln|] eqn:Hln; simpl; try discriminate.
    intros _.
    exists r, l, {| price := p; brand := b; street := st; houseNumber := h;
                    isOpen := o; lat := la; lng := ln |}.
    split; [reflexivity|]. repeat split; assumption.
Qed.

(** [populate] sends nothing and logs nothing. *)
Lemma populate_silent stations (s : S) : trace (populate U F stations s) = [].
Proof.
  unfold populate, first_station, bind, lift, modify, ret, raise, trace.
  repeat match goal with
         | |- context [match ?r with Returned _ => _ | Raised _ => _ end] =>
             destruct r; simpl
         end; reflexivity.
Qed.
End PopulateFacts.

(** ** Relations kept along a computation *)

Section Preserves.
Context {S : Type} (R : S -> S -> Prop) `{!PreOrder R}.

Lemma preserves_ret {A} (a : A) : preserves R (ret a).
Proof. intros s. reflexivity. Qed.

Lemma preserves_raise {A} e : preserves R (@raise S A e).
Proof. intros s. reflexivity. Qed.

Lemma preserves_lift {A} (r : result A) : preserves R (lift r).
Proof. destruct r; [apply preserves_ret | apply preserves_raise]. Qed.

Lemma preserves_emit ev : preserves R (emit ev).
Proof. intros s. reflexivity. Qed.

Lemma preserves_get : preserves R get.
Proof. intros s. reflexivity. Qed.

Lemma preserves_modify f : (forall s, R s (f s)) -> preserves R (modify f).
Proof. intros H s. apply H. Qed.

Lemma preserves_bind {A B} (m : M S A) (k : A -> M S B) :
  preserves R m -> (forall a, preserves R (k a)) -> preserves R (bind m k).
Proof.
  intros Hm Hk s. unfold bind. specialize (Hm s).
  destruct (m s) as [[s1 t1] [a|e]]; simpl in *; [|assumption].
  specialize (Hk a s1). destruct (k a s1) as [[s2 t2] r]; simpl in *.
  etransitivity; eassumption.
Qed.

Lemma preserves_try_except {A} (m : M S A) h :
  preserves R m -> (forall e k, h e = Some k -> preserves R k) ->
  preserves R (try_except m h).
Proof.
  intros Hm Hh s. unfold try_except. specialize (Hm s).
  destruct (m s) as [[s1 t1] [a|e]]; simpl in *; [assumption|].
  destruct (h e) as [k|] eqn:He; [|assumption].
  specialize (Hh e k He s1). destruct (k s1) as [[s2 t2] r]; simpl in *.
  etransitivity; eassumption.
Qed.

Lemma preserves_zoom {T A} (Q : T -> T -> Prop) proj inj (m : M T A) :
  (forall s t, Q (proj s) t -> R s (inj t s)) ->
  preserves Q m -> preserves R (zoom proj inj m).
Proof.
  intros HQ Hm s. unfold zoom. specialize (Hm (proj s)).
  destruct (m (proj s)) as [[t tr] r]; simpl in *. apply HQ, Hm.
Qed.
End Preserves.

Ltac preserves_step :=
  lazymatch goal with
  | |- forall _, _ => intros ?
  | |- preserves _ (bind _ _) => apply preserves_bind
  | |- preserves _ (lift _) => apply preserves_lift
  | |- preserves _ (modify _) => apply preserves_modify
  | |- preserves _ (emit _) => apply preserves_emit
  | |- preserves _ (ret _) => apply preserves_ret
  | |- preserves _ (raise _) => apply preserves_raise
  | |- preserves _ get => apply preserves_get
  | |- preserves _ (if ?b then _ else _) => destruct b
  | |- PreOrder _ => assumption || typeclasses eauto
  end.

Lemma preserves_populate {S} (R : S -> S -> Prop) `{!PreOrder R} U
    (F : sensor_fields S) stations :
  (forall v s, R s (set_state F v s)) ->
  (forall k v s, R s (set_attribute F k v s)) ->
  preserves R (populate U F stations).
Proof.
  intros Hs Ha. unfold populate, first_station.
  repeat preserves_step; solve [apply Hs | apply Ha].
Qed.

(** ** Running a computation step by step *)

Section Steps.
Context {S : Type}.

Lemma run_modify {B} f (k : unit -> M S B) (s : S) :
  bind (modify f) k s = k tt (f s).
Proof. unfold bind, modify. destruct (k tt (f s)) as [[? ?] ?]. reflexivity. Qed.

Lemma run_get {B} (k : S -> M S B) (s : S) : bind get k s = k s s.
Proof. unfold bind, get. destruct (k s s) as [[? ?] ?]. reflexivity. Qed.

Lemma run_ret {A B} (a : A) (k : A -> M S B) (s : S) : bind (ret a) k s = k a s.
Proof. unfold bind, ret. destruct (k a s) as [[? ?] ?]. reflexivity. Qed.

Lemma run_returned {A B} (m : M S A) (k : A -> M S B) (s s1 : S) t1 a :
  m s = (s1, t1, Returned a) ->
  bind m k s = (final (k a s1), t1 ++ trace (k a s1), outcome (k a s1)).
Proof.
  intros H. unfold bind. rewrite H. destruct (k a s1) as [[? ?] ?]. reflexivity.
Qed.

Lemma run_raised {A B} (m : M S A) (k : A -> M S B) (s s1 : S) t1 e :
  m s = (s1, t1, Raised e) -> bind m k s = (s1, t1, Raised e).
Proof. intros H. unfold bind. rewrite H. reflexivity. Qed.

Lemma final_triple {A} (s : S) t (r : result A) : final (s, t, r) = s.
Proof. reflexivity. Qed.

Lemma trace_triple {A} (s : S) t (r : result A) : trace (s, t, r) = t.
Proof. reflexivity. Qed.

Lemma outcome_triple {A} (s : S) t (r : result A) : outcome (s, t, r) = r.
Proof. reflexivity. Qed.

Lemma triple_eta {A} (o : S * list event * result A) :
  (final o, trace o, outcome o) = o.
Proof. destruct o as [[? ?] ?]. reflexivity. Qed.
End Steps.

Ltac project_runs :=
  repeat first [ rewrite final_triple | rewrite trace_triple
               | rewrite outcome_triple ].

(** ** custom_components/tankerkoenig/sensor.py *)

Section ComponentFacts.
Variable U : ucd.
Variable float_repr : float -> pystr.
Variable net : request -> Component.http_reply.

Abbreviation cleared self :=
  (Component.with_attributes ∅ (Component.with_state JNull self)).

(** [get_stations] leaves the state alone, and neither its result nor its
    trace depends on the state. *)
Lemma get_stations_run {S} api la lo ra ft (s : S) :
  Component.get_stations float_repr net api la lo ra ft s
  = (s,
     trace (Component.get_stations float_repr net api la lo ra ft tt),
     outcome (Component.get_stations float_repr net api la lo ra ft tt)).
Proof.
  unfold Component.get_stations, try_except, bind, Component.requests_get,
    Component.raise_for_status, emit, raise, ret, lift, trace, outcome; simpl.
  destruct (net _) as [|code body]; simpl; [reflexivity|].
  destruct ((400 <=? code) && (code <? 600)); simpl; [reflexivity|].
  destruct body as [j|e]; simpl; [reflexivity|].
  destruct (isinstance_RequestException e); simpl; [reflexivity|].
  destruct (isinstance_ValueError e); reflexivity.
Qed.

(** The trace of [get_stations] starts with its one request. *)
Lemma get_stations_request {S} api la lo ra ft (s : S) :
  requests_of (trace (Component.get_stations float_repr net api la lo ra ft s))
  = [{| req_method := py "GET";
        req_url := Component.resource float_repr api la lo ra ft;
        req_verify := true; req_timeout := Some 10 |}].
Proof.
  unfold Component.get_stations, try_except, bind, Component.requests_get,
    Component.raise_for_status, emit, raise, ret, lift, trace; simpl.
  destruct (net _) as [|code body]; simpl; [reflexivity|].
  destruct ((400 <=? code) && (code <? 600)); simpl; [reflexivity|].
  destruct body as [j|e]; simpl; [reflexivity|].
  destruct (isinstance_RequestException e); simpl; [reflexivity|].
  destruct (isinstance_ValueError e); reflexivity.
Qed.

Lemma update_body_fetched self result :
  fetch_result float_repr net self = Returned result ->
  Component.update_body U float_repr net self
  = (final (after_fetch U result (cleared self)),
     trace (Component.get_stations float_repr net (Component._api self)
              (Component._latitude self) (Component._longitude self)
              (Component._radius self) (Component._fuel_type self) tt)
     ++ trace (after_fetch U result (cleared self)),
     outcome (after_fetch U result (cleared self))).
Proof.
  intros H. unfold Component.update_body.
  rewrite !run_modify, run_get. simpl.
  erewrite run_returned; [reflexivity|].
  rewrite get_stations_run. unfold fetch_result in H. rewrite H. reflexivity.
Qed.

Lemma update_body_fetch_raised self e :
  fetch_result float_repr net self = Raised e ->
  Component.update_body U float_repr net self
  = (cleared self,
     trace (Component.get_stations float_repr net (Component._api self)
              (Component._latitude self) (Component._longitude self)
              (Component._radius self) (Component._fuel_type self) tt),
     Raised e).
Proof.
  intros H. unfold Component.update_body.
  rewrite !run_modify, run_get. simpl.
  erewrite run_raised; [reflexivity|].
  rewrite get_stations_run. unfold fetch_result in H. rewrite H. reflexivity.
Qed.

(** A non-empty station list: what follows is [populate]. *)
Lemma after_fetch_stations (m : gmap string json) stations s :
  m !! "stations" = Some stations -> truthy stations = true ->
  after_fetch U (JObj m) s = populate U Component.fields stations s.
Proof.
  intros Hm Ht. unfold after_fetch.
  assert (Hne : truthy (JObj m) = true).
  { simpl. destruct (map_to_list m) eqn:E; [|reflexivity].
    apply map_to_list_empty_iff in E. subst m. discriminate. }
  rewrite Hne.
  erewrite run_returned.
  2:{ unfold try_except, lift, getitem. rewrite Hm. reflexivity. }
  rewrite Ht. simpl. apply triple_eta.
Qed.
End ComponentFacts.

(** ** sensor.py *)

Section LegacyFacts.
Variable U : ucd.
Variable net : request -> option Legacy.body.

Lemma legacy_update_body_eq self :
  Legacy.update_body U net self
  = (final (after_rest U (net (rest_request self)) (refreshed net self)),
     HttpRequest (rest_request self)
     :: trace (after_rest U (net (rest_request self)) (refreshed net self)),
     outcome (after_rest U (net (rest_request self)) (refreshed net self))).
Proof.
  unfold Legacy.update_body.
  rewrite !run_modify.
  erewrite run_returned.
  2:{ unfold zoom, Legacy.RestData_update. rewrite run_get.
      unfold bind, emit, modify. simpl. reflexivity. }
  rewrite run_get. reflexivity.
Qed.

(** A parsed envelope whose "ok" is true and whose station list is not empty:
    what follows is [populate], after one debug line. *)
Lemma after_rest_stations b (m : gmap string json) ok stations s :
  Legacy.text b <> [] ->
  Legacy.json_loads b = Returned (JObj m) ->
  m !! "ok" = Some ok -> truthy ok = true ->
  m !! "stations" = Some stations -> truthy stations = true ->
  after_rest U (Some b) s
  = (final (populate U Legacy.fields stations s),
     Log DEBUG "Received stations: %s"
     :: trace (populate U Legacy.fields stations s),
     outcome (populate U Legacy.fields stations s)).
Proof.
  intros Ht Hj Hok Htk Hm Hts. unfold after_rest.
  assert (Hd : Legacy.truthy_data (Some b) = true).
  { simpl. destruct (Legacy.text b); [contradiction|reflexivity]. }
  rewrite Hd.
  erewrite run_returned.
  2:{ unfold try_except, bind, lift, getitem, ret, emit. rewrite Hj. simpl.
      rewrite Hok. simpl. rewrite Htk. rewrite Hm. simpl. reflexivity. }
  rewrite Hts. reflexivity.
Qed.

(** A parsed envelope whose "ok" is false: nothing is read, nothing logged. *)
Lemma after_rest_not_ok b (m : gmap string json) ok s :
  Legacy.text b <> [] ->
  Legacy.json_loads b = Returned (JObj m) ->
  m !! "ok" = Some ok -> truthy ok = false ->
  after_rest U (Some b) s = (s, [], Returned tt).
Proof.
  intros Ht Hj Hok Htk. unfold after_rest.
  assert (Hd : Legacy.truthy_data (Some b) = true).
  { simpl. destruct (Legacy.text b); [contradiction|reflexivity]. }
  rewrite Hd.
  erewrite run_returned.
  2:{ unfold try_except, bind, lift, getitem, ret, emit. rewrite Hj. simpl.
      rewrite Hok. simpl. rewrite Htk. reflexivity. }
  reflexivity.
Qed.
End LegacyFacts.

(** ** The attribute dictionary after [populate] *)

Lemma inserted_attributes (U : ucd) (st : station) :
  <[ATTR_ATTRIBUTION := JStr ATTRIBUTION]>
    (<[ATTR_LONGITUDE := lng st]>
       (<[ATTR_LATITUDE := lat st]>
          (<[ATTR_STATUS :=
               JStr (if truthy (isOpen st) then py "open" else py "closed")]>
             (<[ATTR_ADDRESS := JStr (title U (street st) ++ houseNumber st)]>
                (<[ATTR_BRAND := JStr (title U (brand st))]> ∅)))))
  = attributes_of U st.
Proof.
  unfold attributes_of, ATTR_ATTRIBUTION, ATTR_LONGITUDE, ATTR_LATITUDE,
    ATTR_STATUS, ATTR_ADDRESS, ATTR_BRAND.
  apply map_eq. intros k. simpl.
  repeat (rewrite lookup_insert; case_decide; subst; simpl; try reflexivity;
          try congruence).
Qed.

(** * The claims *)

(** C1. For a fetch result that is a valid envelope with a non-empty station
    list, [update] returns normally, the state is the price of the first
    station exactly, and the attributes are the title-cased brand, the
    title-cased street followed directly by the house number, "open" or
    "closed" after the isOpen flag, the latitude and longitude of the record,
    and the fixed attribution; in both modules (sensor.py also wants "ok"). *)
Theorem update_shows_first_station
    (U : ucd) (float_repr : float -> pystr)
    (net : request -> Component.http_reply) (self : Component.TankerkoenigSensor)
    (net' : request -> option Legacy.body) (self' : Legacy.TankerkoenigSensor)
    (b : Legacy.body) (m : gmap string json) (r : gmap string json)
    (rest : list json) (st : station) (open : bool) :
  fetch_result float_repr net self = Returned (JObj m) ->
  net' (rest_request self') = Some b ->
  Legacy.text b <> [] ->
  Legacy.json_loads b = Returned (JObj m) ->
  m !! "ok" = Some (JBool true) ->
  m !! "stations" = Some (JList (JObj r :: rest)) ->
  describes r st ->
  isOpen st = JBool open ->
  let o := Component.update_body U float_repr net self in
  let o' := Legacy.update_body U net' self' in
  (outcome o = Returned tt
   /\ Component.state (final o) = price st
   /\ Component.extra_state_attributes (final o) = attributes_of U st)
  /\ (outcome o' = Returned tt
      /\ Legacy.state (final o') = price st
      /\ Legacy.device_state_attributes (final o') = attributes_of U st)
  /\ attributes_of U st
     = list_to_map
         [("brand", JStr (title U (brand st)));
          ("address", JStr (title U (street st) ++ houseNumber st));
          ("status", JStr (if open then py "open" else py "closed"));
          ("latitude", lat st);
          ("longitude", lng st);
          ("attribution", JStr ATTRIBUTION)].
Proof.
  intros Hf Hn Ht Hj Hok Hm Hd Ho o o'. subst o o'.
  split; [|split].
  - rewrite (update_body_fetched _ _ _ _ _ Hf).
    rewrite (after_fetch_stations _ _ _ _ Hm eq_refl).
    rewrite (populate_describes _ _ _ _ _ _ Hd).
    split; [reflexivity | split; [reflexivity | apply inserted_attributes]].
  - rewrite legacy_update_body_eq, Hn.
    rewrite (after_rest_stations U b m _ _ _ Ht Hj Hok eq_refl Hm eq_refl).
    rewrite (populate_describes _ _ _ _ _ _ Hd).
    split; [reflexivity | split; [reflexivity | apply inserted_attributes]].
  - unfold attributes_of. rewrite Ho. reflexivity.
Qed.

Lemma update_shows_first_station_witness :
  let o := Component.update_body unicode_excerpt sample_float_repr
             (fun _ => Component.Response 200
                         (Returned (JObj (envelope true [JObj aral_record]))))
             sample_component in
  let o' := Legacy.update_body unicode_excerpt
              (fun _ => Some (reply_body true aral_text [JObj aral_record]))
              sample_legacy in
  (outcome o = Returned tt
   /\ Component.state (final o) = JFloat 1.679%float
   /\ Component.extra_state_attributes (final o)
      = attributes_of unicode_excerpt aral)
  /\ (outcome o' = Returned tt
      /\ Legacy.state (final o') = JFloat 1.679%float
      /\ Legacy.device_state_attributes (final o')
         = attributes_of unicode_excerpt aral)
  /\ attributes_of unicode_excerpt aral
     = list_to_map
         [("brand", JStr (py "Aral"));
          ("address", JStr (py "Hauptstrasse12"));
          ("status", JStr (py "open"));
          ("latitude", JFloat 50.1%float);
          ("longitude", JFloat 8.6%float);
          ("attribution", JStr ATTRIBUTION)].
Proof.
  apply (update_shows_first_station unicode_excerpt sample_float_repr
           (fun _ => Component.Response 200
                       (Returned (JObj (envelope true [JObj aral_record]))))
           sample_component
           (fun _ => Some (reply_body true aral_text [JObj aral_record]))
           sample_legacy
           (reply_body true aral_text [JObj aral_record])
           (envelope true [JObj aral_record]) aral_record [] aral true);
    try reflexivity.
  - discriminate.
  - repeat split; reflexivity.
Defined.

Section ReturnedUpdates.
Variable U : ucd.

(** When the rest of the component's [update] returns, either nothing was
    assigned or all seven assignments were made from the first station. *)
Lemma after_fetch_returned result s :
  outcome (after_fetch U result s) = Returned tt ->
  final (after_fetch U result s) = s
  \/ exists m r rest st,
       result = JObj m /\ m !! "stations" = Some (JList (JObj r :: rest))
       /\ describes r st
       /\ final (after_fetch U result s) = shown U Component.fields st s.
Proof.
  unfold after_fetch. destruct (truthy result) eqn:Hr.
  - destruct result as [| | | | | |m];
      try (unfold bind, try_except, lift, getitem, raise, outcome; simpl;
           discriminate).
    destruct (m !! "stations") as [stations|] eqn:Hm.
    + erewrite run_returned.
      2:{ unfold try_except, lift, getitem. rewrite Hm. reflexivity. }
      rewrite final_triple, outcome_triple.
      destruct (truthy stations) eqn:Hs; [|left; reflexivity].
      intros H. right.
      destruct (populate_returned U Component.fields stations s H)
        as (r & rest & st & -> & Hd).
      exists m, r, rest, st.
      refine (conj eq_refl (conj Hm (conj Hd _))).
      rewrite (populate_describes _ _ _ _ _ _ Hd). reflexivity.
    + erewrite run_returned.
      2:{ unfold try_except, lift, getitem, bind, emit, ret, raise.
          rewrite Hm. simpl. reflexivity. }
      left. reflexivity.
  - intros _. left. reflexivity.
Qed.

(** The same for sensor.py. *)
Lemma after_rest_returned result s :
  outcome (after_rest U result s) = Returned tt ->
  final (after_rest U result s) = s
  \/ exists b m r rest st,
       result = Some b /\ Legacy.json_loads b = Returned (JObj m)
       /\ m !! "stations" = Some (JList (JObj r :: rest))
       /\ describes r st
       /\ final (after_rest U result s) = shown U Legacy.fields st s.
Proof.
  unfold after_rest. destruct (Legacy.truthy_data result) eqn:Hr.
  2:{ intros _. left. reflexivity. }
  destruct result as [b|]; [|discriminate].
  destruct (Legacy.json_loads b) as [j|e] eqn:Hj.
  2:{ destruct (isinstance_ValueError e) eqn:He.
      - erewrite run_returned.
        2:{ unfold try_except, bind, lift, raise, emit, ret. simpl.
            rewrite He. simpl. reflexivity. }
        left. reflexivity.
      - erewrite run_raised.
        2:{ unfold try_except, bind, lift, raise. simpl. rewrite He.
            reflexivity. }
        discriminate. }
  destruct (getitem j (KStr "ok")) as [ok|e] eqn:Hok.
  2:{ erewrite run_raised.
      2:{ unfold try_except, bind, lift, raise, ret. rewrite Hok. simpl.
          destruct j; simpl in Hok; try (inversion Hok; subst; reflexivity).
          destruct (_ !! "ok"); inversion Hok. reflexivity. }
      discriminate. }
  destruct (truthy ok) eqn:Htk.
  2:{ erewrite run_returned.
      2:{ unfold try_except, bind, lift, ret. rewrite Hok. simpl.
          rewrite Htk. reflexivity. }
      left. reflexivity. }
  destruct (getitem j (KStr "stations")) as [stations|e] eqn:Hst.
  2:{ erewrite run_raised.
      2:{ unfold try_except, bind, lift, raise, ret. rewrite Hok. simpl.
          rewrite Htk, Hst. simpl.
          destruct j; simpl in Hst; try (inversion Hst; subst; reflexivity).
          destruct (_ !! "stations"); inversion Hst. reflexivity. }
      discriminate. }
  erewrite run_returned.
  2:{ unfold try_except, bind, lift, ret, emit. rewrite Hok. simpl.
      rewrite Htk, Hst. simpl. reflexivity. }
  rewrite final_triple, outcome_triple.
  destruct (truthy stations) eqn:Hs; [|left; reflexivity].
  intros H. right.
  destruct (populate_returned U Legacy.fields stations s H)
    as (r & rest & st & -> & Hd).
  destruct j as [| | | | | |m]; try discriminate.
  exists b, m, r, rest, st.
  refine (conj eq_refl (conj Hj (conj _ (conj Hd _)))).
  - simpl in Hst. destruct (m !! "stations"); inversion Hst. reflexivity.
  - rewrite (populate_describes _ _ _ _ _ _ Hd). reflexivity.
Qed.
End ReturnedUpdates.

(** C2, as stated, fails: a first station that has a price and no brand makes
    [update] raise [KeyError] after it has assigned the state, and the
    attributes stay empty. *)
Lemma update_partial_when_brand_missing :
  let o := Component.update_body unicode_excerpt sample_float_repr
             (fun _ => Component.Response 200
                (Returned (JObj (envelope true
                   [JObj {[ "price" := JFloat 1.679%float ]}]))))
             sample_component in
  outcome o = Raised (KeyError (KStr "brand"))
  /\ Component.state (final o) = JFloat 1.679%float
  /\ Component.extra_state_attributes (final o) = ∅
  /\ ~ pair_consistent unicode_excerpt
         (Component.state (final o)) (Component.extra_state_attributes (final o)).
Proof.
  intros o.
  assert (Ho : outcome o = Raised (KeyError (KStr "brand"))) by reflexivity.
  assert (Hs : Component.state (final o) = JFloat 1.679%float) by reflexivity.
  assert (Ha : Component.extra_state_attributes (final o) = ∅) by reflexivity.
  refine (conj Ho (conj Hs (conj Ha _))).
  rewrite Hs, Ha. intros [[H _]|[st [_ H]]].
  - discriminate H.
  - apply (f_equal (lookup "brand")) in H. discriminate H.
Qed.

(** C2, amended. When [update] returns normally, the state and the attributes
    are both empty, or they are the price and the full attribute set of one
    record, the first station of the fetch result; in both modules. *)
Theorem update_consistent_when_returning
    (U : ucd) (float_repr : float -> pystr)
    (net : request -> Component.http_reply) (self : Component.TankerkoenigSensor)
    (net' : request -> option Legacy.body) (self' : Legacy.TankerkoenigSensor) :
  outcome (Component.update_body U float_repr net self) = Returned tt ->
  outcome (Legacy.update_body U net' self') = Returned tt ->
  let s := final (Component.update_body U float_repr net self) in
  let s' := final (Legacy.update_body U net' self') in
  ((Component.state s = JNull /\ Component.extra_state_attributes s = ∅)
   \/ exists m r rest st,
        fetch_result float_repr net self = Returned (JObj m)
        /\ m !! "stations" = Some (JList (JObj r :: rest))
        /\ describes r st
        /\ Component.state s = price st
        /\ Component.extra_state_attributes s = attributes_of U st)
  /\ ((Legacy.state s' = JNull /\ Legacy.device_state_attributes s' = ∅)
      \/ exists b m r rest st,
           net' (rest_request self') = Some b
           /\ Legacy.json_loads b = Returned (JObj m)
           /\ m !! "stations" = Some (JList (JObj r :: rest))
           /\ describes r st
           /\ Legacy.state s' = price st
           /\ Legacy.device_state_attributes s' = attributes_of U st).
Proof.
  intros H H'. split.
  - destruct (fetch_result float_repr net self) as [result|e] eqn:Hf.
    2:{ rewrite (update_body_fetch_raised _ _ _ _ _ Hf) in H. discriminate H. }
    rewrite (update_body_fetched _ _ _ _ _ Hf) in H |- *.
    rewrite outcome_triple in H. cbv zeta. rewrite final_triple.
    destruct (after_fetch_returned U result _ H)
      as [->|(m & r & rest & st & -> & Hm & Hd & ->)].
    + left. split; reflexivity.
    + right. exists m, r, rest, st.
      refine (conj eq_refl (conj Hm (conj Hd (conj eq_refl _)))).
      apply inserted_attributes.
  - rewrite legacy_update_body_eq in H' |- *.
    rewrite outcome_triple in H'. cbv zeta. rewrite final_triple.
    destruct (after_rest_returned U _ _ H')
      as [->|(b & m & r & rest & st & Hn & Hj & Hm & Hd & ->)].
    + left. split; reflexivity.
    + right. exists b, m, r, rest, st.
      refine (conj Hn (conj Hj (conj Hm (conj Hd (conj eq_refl _))))).
      apply inserted_attributes.
Qed.

Lemma update_consistent_when_returning_witness :
  let s := final (Component.update_body unicode_excerpt sample_float_repr
                    (answering (JObj (envelope false []))) sample_component) in
  let s' := final (Legacy.update_body unicode_excerpt
                     (storing (reply_body true aral_text [JObj aral_record]))
                     sample_legacy) in
  ((Component.state s = JNull /\ Component.extra_state_attributes s = ∅)
   \/ exists m r rest st,
        fetch_result sample_float_repr (answering (JObj (envelope false [])))
          sample_component = Returned (JObj m)
        /\ m !! "stations" = Some (JList (JObj r :: rest))
        /\ describes r st
        /\ Component.state s = price st
        /\ Component.extra_state_attributes s = attributes_of unicode_excerpt st)
  /\ ((Legacy.state s' = JNull /\ Legacy.device_state_attributes s' = ∅)
      \/ exists b m r rest st,
           storing (reply_body true aral_text [JObj aral_record])
             (rest_request sample_legacy) = Some b
           /\ Legacy.json_loads b = Returned (JObj m)
           /\ m !! "stations" = Some (JList (JObj r :: rest))
           /\ describes r st
           /\ Legacy.state s' = price st
           /\ Legacy.device_state_attributes s' = attributes_of unicode_excerpt st).
Proof.
  apply (update_consistent_when_returning unicode_excerpt sample_float_repr
           (answering (JObj (envelope false []))) sample_component
           (storing (reply_body true aral_text [JObj aral_record]))
           sample_legacy);
    reflexivity.
Defined.

#[local] Instance kept_preorder {S T} (f : S -> T) : PreOrder (kept f).
Proof.
  split.
  - intros s. reflexivity.
  - intros s1 s2 s3 H12 H23. unfold kept in *. congruence.
Qed.




(** ** What [update] leaves alone *)

#[local] Instance same_config_preorder : PreOrder same_config.
Proof.
  split.
  - intros s. repeat split.
  - intros s1 s2 s3 (?&?&?&?&?&?) (?&?&?&?&?&?).
    repeat split; congruence.
Qed.

#[local] Instance same_endpoint_preorder : PreOrder same_endpoint.
Proof.
  split.
  - intros s. repeat split.
  - intros s1 s2 s3 (?&?&?&?&?) (?&?&?&?&?).
    repeat split; congruence.
Qed.

Lemma component_update_body_keeps U float_repr net :
  preserves same_config (Component.update_body U float_repr net).
Proof.
  unfold Component.update_body.
  repeat preserves_step.
  - repeat split.
  - repeat split.
  - intros s. rewrite get_stations_run. reflexivity.
  - apply preserves_try_except; [typeclasses eauto | apply preserves_lift; typeclasses eauto |].
    intros e k H. destruct (isinstance_KeyError e); inversion H; subst.
    repeat preserves_step.
  - apply preserves_populate; [typeclasses eauto | |]; intros; repeat split.
Qed.

Lemma legacy_update_body_keeps U net :
  preserves same_endpoint (Legacy.update_body U net).
Proof.
  unfold Legacy.update_body.
  repeat preserves_step.
  - repeat split.
  - repeat split.
  - intros s. repeat split.
  - apply preserves_try_except; [typeclasses eauto | |].
    + repeat preserves_step.
    + intros e k H. destruct (isinstance_ValueError e); inversion H; subst.
      repeat preserves_step.
  - apply preserves_populate; [typeclasses eauto | |]; intros; repeat split.
Qed.

Lemma Throttle_keeps {S} (R : S -> S -> Prop) `{!PreOrder R} min_time
    (method : M S unit) now_check now_done (th : throttled S) :
  preserves R method ->
  R (host th) (host (final (Throttle min_time method now_check now_done th))).
Proof.
  intros Hm. unfold Throttle. rewrite run_get.
  destruct (_ || _); [|reflexivity].
  unfold bind, zoom, modify. specialize (Hm (host th)).
  destruct (method (host th)) as [[h t] [[]|e]]; simpl in *; assumption.
Qed.

(** C10. [update] leaves every field but the state and the attributes as it
    was: the name, the icon, the unit, the device class and the configured API
    key, latitude, longitude, radius and fuel type of the component; the
    name, the icon, the unit and the request ([RestData]'s method, endpoint
    with the configured values, certificate check and timeout) of sensor.py;
    for every reply of the network, throttled or not. *)
Theorem update_keeps_configuration
    (U : ucd) (float_repr : float -> pystr)
    (net : request -> Component.http_reply)
    (th : throttled Component.TankerkoenigSensor)
    (net' : request -> option Legacy.body)
    (th' : throttled Legacy.TankerkoenigSensor)
    (now_check now_done : Z) :
  let s := host th in
  let s1 := host (final (Component.update U float_repr net now_check now_done th)) in
  let s' := host th' in
  let s1' := host (final (Legacy.update U net' now_check now_done th')) in
  (Component.name s1 = Component.name s
   /\ Component.icon s1 = Component.icon s
   /\ Component.unit_of_measurement s1 = Component.unit_of_measurement s
   /\ Component.device_class s1 = Component.device_class s
   /\ Component._api s1 = Component._api s
   /\ Component._latitude s1 = Component._latitude s
   /\ Component._longitude s1 = Component._longitude s
   /\ Component._radius s1 = Component._radius s
   /\ Component._fuel_type s1 = Component._fuel_type s)
  /\ (Legacy.name s1' = Legacy.name s'
      /\ Legacy.icon s1' = Legacy.icon s'
      /\ Legacy.unit_of_measurement s1' = Legacy.unit_of_measurement s'
      /\ rest_request s1' = rest_request s').
Proof.
  intros s s1 s' s1'. split.
  - destruct (Throttle_keeps same_config MIN_TIME_BETWEEN_UPDATES
                (Component.update_body U float_repr net) now_check now_done th
                (component_update_body_keeps U float_repr net))
      as (Ha & Hn & Hla & Hlo & Hr & Hf).
    unfold Component.name. repeat split; assumption.
  - destruct (Throttle_keeps same_endpoint MIN_TIME_BETWEEN_UPDATES
                (Legacy.update_body U net') now_check now_done th'
                (legacy_update_body_keeps U net'))
      as (Hn & Hm & Hr & Hv & Ht).
    unfold Legacy.name, rest_request. repeat split; try assumption.
    fold s' s1'. unfold Legacy.update in s1'. fold s1' in Hm, Hr, Hv, Ht.
    rewrite Hm, Hr, Hv, Ht. reflexivity.
Qed.

(** ** The fetch *)

(** How [get_stations] ends in each of the four cases. *)
Lemma get_stations_by_case
    (float_repr : float -> pystr) (net : request -> Component.http_reply)
    (api : Component.TankerkoenigApi) (latitude longitude radius : number)
    (fuel_type : pystr) (S : Type) (s : S)
    (reply : Component.http_reply) (v : json) (failed : bool) :
  net {| req_method := py "GET";
         req_url := Component.resource float_repr api latitude longitude
                      radius fuel_type;
         req_verify := true;
         req_timeout := Some 10 |} = reply ->
  fetch_case reply v failed ->
  let o := Component.get_stations float_repr net api latitude longitude
             radius fuel_type s in
  outcome o = Returned v
  /\ final o = s
  /\ logged_at ERROR (trace o) = failed.
Proof.
  intros Hn Hc o. subst o.
  unfold Component.get_stations, try_except, bind, Component.requests_get,
    Component.raise_for_status, emit, raise, ret, lift.
  cbv zeta. rewrite Hn.
  destruct Hc as [|code body Hcode|code fr|code j Hcode]; simpl.
  - repeat split.
  - replace ((400 <=? code) && (code <? 600)) with true
      by (symmetry; apply andb_true_iff; split; [apply Z.leb_le|apply Z.ltb_lt]; lia).
    repeat split.
  - destruct ((400 <=? code) && (code <? 600)); simpl; [repeat split|].
    destruct fr; repeat split.
  - replace ((400 <=? code) && (code <? 600)) with false.
    + repeat split.
    + symmetry. apply andb_false_iff.
      destruct (Z.leb_spec 400 code); [|left; reflexivity].
      right. apply Z.ltb_ge. lia.
Qed.

(** C4, as stated, fails for the statuses outside 2xx that are not errors to
    [raise_for_status]: a 300 reply with a JSON body is returned, not
    dropped. *)
Lemma get_stations_returns_body_of_300 :
  ~ 200 <= 300 < 300
  /\ fetch_result sample_float_repr
       (fun _ => Component.Response 300
                   (Returned (JObj (envelope true [JObj aral_record]))))
       sample_component
     = Returned (JObj (envelope true [JObj aral_record]))
  /\ JObj (envelope true [JObj aral_record]) <> JNull.
Proof.
  split; [lia|]. split; [reflexivity|discriminate].
Qed.

(** C4, amended. [get_stations] raises nothing and leaves the state alone.
    When the transport fails, when the status is 4xx or 5xx, and when the body
    is not JSON, it logs an error and returns [None]; for any other status
    with a body that parses it returns the parsed body and logs nothing. *)
Theorem get_stations_outcomes
    (float_repr : float -> pystr) (net : request -> Component.http_reply)
    (api : Component.TankerkoenigApi) (latitude longitude radius : number)
    (fuel_type : pystr) (S : Type) (s : S)
    (reply : Component.http_reply) (v : json) (failed : bool) :
  net (get_request (Component.resource float_repr api latitude longitude
                      radius fuel_type)) = reply ->
  fetch_case reply v failed ->
  let o := Component.get_stations float_repr net api latitude longitude
             radius fuel_type s in
  outcome o = Returned v
  /\ (forall e, outcome o <> Raised e)
  /\ final o = s
  /\ logged_at ERROR (trace o) = failed
  /\ logged_at WARNING (trace o) = false.
Proof.
  intros Hn Hc o.
  destruct (get_stations_by_case float_repr net api latitude longitude radius
              fuel_type S s reply v failed Hn Hc) as (Ho & Hs & Hl).
  fold o in Ho, Hs, Hl.
  refine (conj Ho (conj _ (conj Hs (conj Hl _)))).
  - intros e He. rewrite Ho in He. discriminate He.
  - subst o. rewrite get_stations_run, trace_triple.
    unfold Component.get_stations, try_except, bind, Component.requests_get,
      Component.raise_for_status, emit, raise, ret, lift, trace; simpl.
    destruct (net _) as [|code body]; simpl; [reflexivity|].
    destruct ((400 <=? code) && (code <? 600)); simpl; [reflexivity|].
    destruct body as [j|e]; simpl; [reflexivity|].
    destruct (isinstance_RequestException e); simpl; [reflexivity|].
    destruct (isinstance_ValueError e); reflexivity.
Qed.

Lemma get_stations_outcomes_witness :
  let o := Component.get_stations sample_float_repr
             (fun _ => Component.Response 404 (Returned (JObj ∅)))
             (Component._api sample_component)
             (NumFloat 50.1%float) (NumFloat 8.6%float) (NumFloat 1.5%float)
             (py "e5") sample_component in
  outcome o = Returned JNull
  /\ (forall e, outcome o <> Raised e)
  /\ final o = sample_component
  /\ logged_at ERROR (trace o) = true
  /\ logged_at WARNING (trace o) = false.
Proof.
  apply (get_stations_outcomes sample_float_repr
           (fun _ => Component.Response 404 (Returned (JObj ∅)))
           (Component._api sample_component)
           (NumFloat 50.1%float) (NumFloat 8.6%float) (NumFloat 1.5%float)
           (py "e5") Component.TankerkoenigSensor sample_component
           (Component.Response 404 (Returned (JObj ∅))) JNull true).
  - reflexivity.
  - apply error_status. lia.
Defined.

(** ** Envelopes without a station list *)

Lemma truthy_object (m : gmap string json) : m <> ∅ -> truthy (JObj m) = true.
Proof.
  intros Hne. simpl. destruct (map_to_list m) eqn:E; [|reflexivity].
  apply map_to_list_empty_iff in E. contradiction.
Qed.

Lemma after_fetch_no_stations U (m : gmap string json) s :
  m <> ∅ -> m !! "stations" = None ->
  after_fetch U (JObj m) s
  = (s,
     [Log ERROR "Erroneous result found when expecting list of stations: %s"],
     Returned tt).
Proof.
  intros Hne Hm. unfold after_fetch. rewrite (truthy_object m Hne).
  erewrite run_returned.
  2:{ unfold try_except, lift, getitem, bind, emit, ret, raise.
      rewrite Hm. simpl. reflexivity. }
  reflexivity.
Qed.

(** C5, as stated, fails in sensor.py: the provider's error envelope ("ok"
    false, a message, no station list) is dropped without any error or
    warning. *)
Lemma legacy_silent_when_not_ok :
  let o := Legacy.update_body unicode_excerpt (storing error_body)
             sample_legacy in
  error_envelope <> ∅ /\ error_envelope !! "stations" = None
  /\ logged_at ERROR (trace o) = false
  /\ logged_at WARNING (trace o) = false.
Proof.
  intros o. split; [|repeat split].
  intros H. apply (f_equal (lookup "ok")) in H. discriminate H.
Qed.

(** C5, amended. In the component, a non-empty envelope without "stations"
    makes [update] log an error and return with the state [None] and the
    attributes empty.  In sensor.py, such an envelope whose "ok" is there and
    false makes [update] return with the state [None] and the attributes
    empty, and nothing is logged at error or warning level. *)
Theorem envelope_without_stations_clears
    (U : ucd) (float_repr : float -> pystr)
    (net : request -> Component.http_reply) (self : Component.TankerkoenigSensor)
    (net' : request -> option Legacy.body) (self' : Legacy.TankerkoenigSensor)
    (m : gmap string json) (b : Legacy.body) (m' : gmap string json) (ok : json) :
  fetch_result float_repr net self = Returned (JObj m) ->
  m <> ∅ ->
  m !! "stations" = None ->
  net' (rest_request self') = Some b ->
  Legacy.text b <> [] ->
  Legacy.json_loads b = Returned (JObj m') ->
  m' !! "stations" = None ->
  m' !! "ok" = Some ok ->
  truthy ok = false ->
  let o := Component.update_body U float_repr net self in
  let o' := Legacy.update_body U net' self' in
  (outcome o = Returned tt
   /\ logged_at ERROR (trace o) = true
   /\ Component.state (final o) = JNull
   /\ Component.extra_state_attributes (final o) = ∅)
  /\ (outcome o' = Returned tt
      /\ Legacy.state (final o') = JNull
      /\ Legacy.device_state_attributes (final o') = ∅
      /\ logged_at ERROR (trace o') = false
      /\ logged_at WARNING (trace o') = false).
Proof.
  intros Hf Hne Hm Hn Ht Hj _ Hok Htk o o'. subst o o'. split.
  - rewrite (update_body_fetched _ _ _ _ _ Hf).
    rewrite (after_fetch_no_stations U m _ Hne Hm).
    rewrite outcome_triple, trace_triple, final_triple.
    refine (conj eq_refl (conj _ (conj eq_refl eq_refl))).
    unfold logged_at. rewrite existsb_app. simpl. apply orb_true_r.
  - rewrite legacy_update_body_eq, Hn.
    rewrite (after_rest_not_ok U b m' ok _ Ht Hj Hok Htk).
    repeat split.
Qed.

Lemma envelope_without_stations_clears_witness :
  let o := Component.update_body unicode_excerpt sample_float_repr
             (answering (JObj error_envelope)) sample_component in
  let o' := Legacy.update_body unicode_excerpt (storing error_body)
              sample_legacy in
  (outcome o = Returned tt
   /\ logged_at ERROR (trace o) = true
   /\ Component.state (final o) = JNull
   /\ Component.extra_state_attributes (final o) = ∅)
  /\ (outcome o' = Returned tt
      /\ Legacy.state (final o') = JNull
      /\ Legacy.device_state_attributes (final o') = ∅
      /\ logged_at ERROR (trace o') = false
      /\ logged_at WARNING (trace o') = false).
Proof.
  apply (envelope_without_stations_clears unicode_excerpt sample_float_repr
           (answering (JObj error_envelope)) sample_component
           (storing error_body) sample_legacy
           error_envelope error_body error_envelope (JBool false));
    try reflexivity.
  - intros H. apply (f_equal (lookup "ok")) in H. discriminate H.
  - discriminate.
Defined.

(** ** Error kinds of an update cycle *)

Lemma requests_of_app t1 t2 :
  requests_of (t1 ++ t2) = requests_of t1 ++ requests_of t2.
Proof. unfold requests_of. apply omap_app. Qed.







(** ** The throttle *)

Lemma Throttle_suppresses {S} min_time (method : M S unit) now_check now_done
    (th : throttled S) t :
  last_call th = Some t -> now_check - t <= min_time ->
  Throttle min_time method now_check now_done th = (th, [], Returned tt).
Proof.
  intros Hl Ht. unfold Throttle. rewrite run_get, Hl. simpl.
  replace (min_time <? now_check - t) with false
    by (symmetry; apply Z.ltb_ge; exact Ht).
  reflexivity.
Qed.

Lemma Throttle_records {S} (method : M S unit) now_check now_done
    (th : throttled S) :
  lets_through th now_check ->
  outcome (Throttle MIN_TIME_BETWEEN_UPDATES method now_check now_done th)
  = Returned tt ->
  last_call (final (Throttle MIN_TIME_BETWEEN_UPDATES method now_check
                      now_done th))
  = Some now_done.
Proof.
  unfold lets_through, Throttle. rewrite run_get.
  destruct (last_call th) as [t|] eqn:Hl; simpl.
  - intros Ht. replace (MIN_TIME_BETWEEN_UPDATES <? now_check - t) with true
      by (symmetry; apply Z.ltb_lt; exact Ht).
    unfold bind, zoom, modify.
    destruct (method (host th)) as [[h tr] [[]|e]]; simpl;
      [reflexivity | discriminate].
  - intros _. unfold bind, zoom, modify.
    destruct (method (host th)) as [[h tr] [[]|e]]; simpl;
      [reflexivity | discriminate].
Qed.

(** C3, as stated, fails when the first call of the pair was itself
    throttled: times are counted from the last call that ran.  Here a call at
    0 s runs (and ends at 1 s), a call at 599 s is throttled, and a call at
    602 s, three seconds later, fetches again and changes the state. *)
Lemma throttled_call_opens_no_window :
  let th0 := {| host := sample_component; last_call := None |} in
  let th1 := final (Component.update unicode_excerpt sample_float_repr
                      (answering (JObj (envelope true [JObj aral_record])))
                      0 1000000 th0) in
  let o2 := Component.update unicode_excerpt sample_float_repr
              (answering (JObj (envelope true [JObj aral_record])))
              599000000 599000001 th1 in
  let o3 := Component.update unicode_excerpt sample_float_repr
              (fun _ => Component.Failed) 602000000 603000000 (final o2) in
  602000000 - 599000000 < MIN_TIME_BETWEEN_UPDATES
  /\ requests_of (trace o2) = []
  /\ Component.state (host (final o2)) = JFloat 1.679%float
  /\ requests_of (trace o3) = [fetch_request sample_float_repr sample_component]
  /\ Component.state (host (final o3)) = JNull.
Proof. repeat split. Qed.

(** C3, amended. When a call of [update] ran the body and returned normally,
    a later call less than ten minutes after it sends no request, logs
    nothing, and leaves the sensor as the first call left it: same state,
    same attributes; in both modules. *)
Theorem second_update_within_interval_is_suppressed
    (U : ucd) (float_repr : float -> pystr)
    (net1 net2 : request -> Component.http_reply)
    (th : throttled Component.TankerkoenigSensor)
    (net1' net2' : request -> option Legacy.body)
    (th' : throttled Legacy.TankerkoenigSensor)
    (check1 done1 check2 done2 : Z) :
  lets_through th check1 ->
  lets_through th' check1 ->
  outcome (Component.update U float_repr net1 check1 done1 th) = Returned tt ->
  outcome (Legacy.update U net1' check1 done1 th') = Returned tt ->
  check1 <= done1 ->
  check2 - check1 < MIN_TIME_BETWEEN_UPDATES ->
  let th1 := final (Component.update U float_repr net1 check1 done1 th) in
  let o2 := Component.update U float_repr net2 check2 done2 th1 in
  let th1' := final (Legacy.update U net1' check1 done1 th') in
  let o2' := Legacy.update U net2' check2 done2 th1' in
  (outcome o2 = Returned tt
   /\ trace o2 = []
   /\ Component.state (host (final o2)) = Component.state (host th1)
   /\ Component.extra_state_attributes (host (final o2))
      = Component.extra_state_attributes (host th1))
  /\ (outcome o2' = Returned tt
      /\ trace o2' = []
      /\ Legacy.state (host (final o2')) = Legacy.state (host th1')
      /\ Legacy.device_state_attributes (host (final o2'))
         = Legacy.device_state_attributes (host th1')).
Proof.
  intros Hl Hl' Ho Ho' Hd Hc th1 o2 th1' o2'. subst o2 o2'.
  unfold Component.update, Legacy.update in *.
  pose proof (Throttle_records _ _ _ _ Hl Ho) as Hs.
  pose proof (Throttle_records _ _ _ _ Hl' Ho') as Hs'.
  fold th1 in Hs. fold th1' in Hs'.
  rewrite (Throttle_suppresses _ _ check2 done2 th1 done1 Hs) by lia.
  rewrite (Throttle_suppresses _ _ check2 done2 th1' done1 Hs') by lia.
  repeat split.
Qed.

Lemma second_update_within_interval_is_suppressed_witness :
  let th := {| host := sample_component; last_call := None |} in
  let th' := {| host := sample_legacy; last_call := None |} in
  let th1 := final (Component.update unicode_excerpt sample_float_repr
                      (answering (JObj (envelope true [JObj aral_record])))
                      0 1000000 th) in
  let o2 := Component.update unicode_excerpt sample_float_repr
              (fun _ => Component.Failed) 599000000 599000001 th1 in
  let th1' := final (Legacy.update unicode_excerpt
                       (storing (reply_body true aral_text [JObj aral_record]))
                       0 1000000 th') in
  let o2' := Legacy.update unicode_excerpt (fun _ => None)
               599000000 599000001 th1' in
  (outcome o2 = Returned tt
   /\ trace o2 = []
   /\ Component.state (host (final o2)) = Component.state (host th1)
   /\ Component.extra_state_attributes (host (final o2))
      = Component.extra_state_attributes (host th1))
  /\ (outcome o2' = Returned tt
      /\ trace o2' = []
      /\ Legacy.state (host (final o2')) = Legacy.state (host th1')
      /\ Legacy.device_state_attributes (host (final o2'))
         = Legacy.device_state_attributes (host th1')).
Proof.
  apply (second_update_within_interval_is_suppressed unicode_excerpt
           sample_float_repr
           (answering (JObj (envelope true [JObj aral_record])))
           (fun _ => Component.Failed)
           {| host := sample_component; last_call := None |}
           (storing (reply_body true aral_text [JObj aral_record]))
           (fun _ => None)
           {| host := sample_legacy; last_call := None |}
           0 1000000 599000000 599000001);
    try reflexivity; try exact I; unfold MIN_TIME_BETWEEN_UPDATES; lia.
Defined.

(** ** The request of a fetch *)

Section SendsNothing.
Context {S : Type}.

Lemma sends_nothing_ret {A} (a : A) : sends_nothing (@ret S A a).
Proof. intros s. reflexivity. Qed.

Lemma sends_nothing_raise {A} e : sends_nothing (@raise S A e).
Proof. intros s. reflexivity. Qed.

Lemma sends_nothing_lift {A} (r : result A) : sends_nothing (@lift S A r).
Proof. destruct r; [apply sends_nothing_ret | apply sends_nothing_raise]. Qed.

Lemma sends_nothing_log l fmt : sends_nothing (@emit S (Log l fmt)).
Proof. intros s. reflexivity. Qed.

Lemma sends_nothing_modify f : sends_nothing (@modify S f).
Proof. intros s. reflexivity. Qed.

Lemma sends_nothing_bind {A B} (m : M S A) (k : A -> M S B) :
  sends_nothing m -> (forall a, sends_nothing (k a)) -> sends_nothing (bind m k).
Proof.
  intros Hm Hk s. unfold bind. specialize (Hm s).
  destruct (m s) as [[s1 t1] [a|e]]; [|exact Hm].
  specialize (Hk a s1). destruct (k a s1) as [[s2 t2] r].
  unfold trace in *. simpl in *. rewrite requests_of_app, Hm, Hk. reflexivity.
Qed.

Lemma sends_nothing_try_except {A} (m : M S A) h :
  sends_nothing m -> (forall e k, h e = Some k -> sends_nothing k) ->
  sends_nothing (try_except m h).
Proof.
  intros Hm Hh s. unfold try_except. specialize (Hm s).
  destruct (m s) as [[s1 t1] [a|e]]; [exact Hm|].
  destruct (h e) as [k|] eqn:He; [|exact Hm].
  specialize (Hh e k He s1). destruct (k s1) as [[s2 t2] r].
  unfold trace in *. simpl in *. rewrite requests_of_app, Hm, Hh. reflexivity.
Qed.
End SendsNothing.

Ltac sends_nothing_step :=
  lazymatch goal with
  | |- forall _, _ => intros ?
  | |- sends_nothing (bind _ _) => apply sends_nothing_bind
  | |- sends_nothing (lift _) => apply sends_nothing_lift
  | |- sends_nothing (modify _) => apply sends_nothing_modify
  | |- sends_nothing (emit (Log _ _)) => apply sends_nothing_log
  | |- sends_nothing (ret _) => apply sends_nothing_ret
  | |- sends_nothing (raise _) => apply sends_nothing_raise
  | |- sends_nothing (if ?b then _ else _) => destruct b
  end.

Lemma populate_sends_nothing {S} U (F : sensor_fields S) stations :
  sends_nothing (populate U F stations).
Proof. intros s. rewrite populate_silent. reflexivity. Qed.

Lemma after_fetch_sends_nothing U result : sends_nothing (after_fetch U result).
Proof.
  unfold after_fetch. repeat sends_nothing_step.
  - apply sends_nothing_try_except; [apply sends_nothing_lift|].
    intros e k H. destruct (isinstance_KeyError e); inversion H; subst.
    repeat sends_nothing_step.
  - apply populate_sends_nothing.
Qed.

Lemma after_rest_sends_nothing U result : sends_nothing (after_rest U result).
Proof.
  unfold after_rest. repeat sends_nothing_step.
  - apply sends_nothing_try_except; [repeat sends_nothing_step|].
    intros e k H. destruct (isinstance_ValueError e); inversion H; subst.
    repeat sends_nothing_step.
  - apply populate_sends_nothing.
Qed.

(** The component sends exactly the request of [get_stations], whatever the
    network answers. *)
Lemma component_update_body_requests U float_repr net self :
  requests_of (trace (Component.update_body U float_repr net self))
  = [fetch_request float_repr self].
Proof.
  destruct (fetch_result float_repr net self) as [result|e] eqn:Hf.
  - rewrite (update_body_fetched _ _ _ _ _ Hf), trace_triple.
    rewrite requests_of_app, get_stations_request, after_fetch_sends_nothing.
    reflexivity.
  - rewrite (update_body_fetch_raised _ _ _ _ _ Hf), trace_triple.
    apply get_stations_request.
Qed.

Lemma legacy_update_body_requests U net self :
  requests_of (trace (Legacy.update_body U net self)) = [rest_request self].
Proof.
  rewrite legacy_update_body_eq, trace_triple.
  change (rest_request self
          :: requests_of (trace (after_rest U (net (rest_request self))
                                   (refreshed net self)))
          = [rest_request self]).
  rewrite after_rest_sends_nothing. reflexivity.
Qed.

(** C7. Every fetch is one GET request to the list endpoint whose query
    string holds exactly the six parameters apikey, lat, lng, rad, type and
    sort=price (in this order in the component, in another order in
    sensor.py), with the certificate check on and a timeout of 10 seconds. *)
Theorem fetch_sends_the_list_query
    (U : ucd) (float_repr : float -> pystr)
    (net : request -> Component.http_reply) (self : Component.TankerkoenigSensor)
    (net' : request -> option Legacy.body)
    (latitude longitude : number) (cfg : Legacy.config) :
  requests_of (trace (Component.update_body U float_repr net self))
  = [get_request
       (ENDPOINT ++ py "?"
        ++ query_string
             (list_query (Component._api_key (Component._api self))
                (format_number float_repr (Component._latitude self))
                (format_number float_repr (Component._longitude self))
                (format_number float_repr (Component._radius self))
                (Component._fuel_type self)))]
  /\ exists params,
       params ≡ₚ list_query (Legacy.CONF_API_KEY cfg)
                   (format_number float_repr latitude)
                   (format_number float_repr longitude)
                   (format_number float_repr (Legacy.CONF_RADIUS cfg))
                   (Legacy.CONF_FUEL_TYPE cfg)
       /\ Forall
            (fun self' =>
               requests_of (trace (Legacy.update_body U net' self'))
               = [get_request (ENDPOINT ++ py "?" ++ query_string params)])
            (Legacy.setup_platform float_repr latitude longitude cfg).
Proof.
  split.
  - rewrite component_update_body_requests.
    unfold fetch_request, get_request, Component.resource, ENDPOINT,
      list_query, query_string.
    simpl. repeat rewrite <- app_assoc. reflexivity.
  - exists [("lat", format_number float_repr latitude);
            ("lng", format_number float_repr longitude);
            ("rad", format_number float_repr (Legacy.CONF_RADIUS cfg));
            ("sort", py "price");
            ("type", Legacy.CONF_FUEL_TYPE cfg);
            ("apikey", Legacy.CONF_API_KEY cfg)].
    split.
    + unfold list_query.
      etransitivity.
      * symmetry.
        apply (Permutation_cons_append
                 [("lat", format_number float_repr latitude);
                  ("lng", format_number float_repr longitude);
                  ("rad", format_number float_repr (Legacy.CONF_RADIUS cfg));
                  ("sort", py "price");
                  ("type", Legacy.CONF_FUEL_TYPE cfg)]
                 ("apikey", Legacy.CONF_API_KEY cfg)).
      * apply perm_skip. do 3 apply perm_skip. apply perm_swap.
    + unfold Legacy.setup_platform. constructor; [|constructor].
      rewrite legacy_update_body_requests.
      unfold rest_request, get_request, Legacy.new_sensor, ENDPOINT,
        Legacy.DEFAULT_TIMEOUT, query_string.
      simpl. repeat rewrite <- app_assoc. reflexivity.
Qed.

(** ** Title-casing twice *)

Ltac ascii_cases c :=
  unfold ascii_title_char, ascii_cased, ascii_upper, ascii_lower;
  destruct (N.leb_spec 65 c); destruct (N.leb_spec c 90);
  destruct (N.leb_spec 97 c); destruct (N.leb_spec c 122); simpl;
  repeat match goal with
         | |- context [(?a <=? ?b)%N] => destruct (N.leb_spec a b); simpl
         end;
  try reflexivity; try lia.

Lemma ascii_title_char_idempotent p c :
  ascii_title_char p (ascii_title_char p c) = ascii_title_char p c.
Proof. destruct p; ascii_cases c. Qed.

Lemma ascii_title_char_cased p c :
  ascii_cased (ascii_title_char p c) = ascii_cased c.
Proof. destruct p; ascii_cases c. Qed.

Lemma ascii_title_char_ascii p c :
  (c < 128)%N -> (ascii_title_char p c < 128)%N.
Proof. intros H. destruct p; ascii_cases c. Qed.

Lemma ascii_title_idempotent p s :
  ascii_title p (ascii_title p s) = ascii_title p s.
Proof.
  revert p. induction s as [|c s IH]; intros p; [reflexivity|].
  simpl. rewrite ascii_title_char_idempotent, ascii_title_char_cased, IH.
  reflexivity.
Qed.

Lemma ascii_title_ascii p s :
  Forall (fun c => (c < 128)%N) s ->
  Forall (fun c => (c < 128)%N) (ascii_title p s).
Proof.
  intros H. revert p. induction H as [|c s Hc Hs IH]; intros p; simpl.
  - constructor.
  - constructor; [apply ascii_title_char_ascii, Hc | apply IH].
Qed.

(** On ASCII text, [do_title] is [ascii_title], whatever comes before. *)
Lemma do_title_ascii U before p s :
  ascii_compatible U ->
  Forall (fun c => (c < 128)%N) s ->
  do_title U before p s = ascii_title p s.
Proof.
  intros HU H. revert before p.
  induction H as [|c s Hc Hs IH]; intros before p; [reflexivity|].
  simpl. destruct (HU c Hc) as (Hcased & Htitle & Hlower).
  rewrite IH, Hcased. fold (ascii_cased c). f_equal.
  unfold lower_ucs4, ascii_title_char.
  replace (c =? 931)%N with false by (symmetry; apply N.eqb_neq; lia).
  rewrite Htitle, Hlower. destruct p; reflexivity.
Qed.

(** C8, as stated, fails: U+1FB7 (Greek small alpha with perispomeni and
    ypogegrammeni) title-cases to U+0391 U+0342 U+0345, and in that string the
    U+0345 follows an uncased mark, so a second pass maps it to U+0399. *)
Lemma title_not_idempotent :
  title unicode_excerpt [8119%N] = [913; 834; 837]%N
  /\ title unicode_excerpt (title unicode_excerpt [8119%N]) = [913; 834; 921]%N
  /\ title unicode_excerpt (title unicode_excerpt [8119%N])
     <> title unicode_excerpt [8119%N].
Proof. split; [reflexivity|]. split; [reflexivity|discriminate]. Qed.

(** C8, amended. Title-casing is idempotent on ASCII text: for every string
    of code points below 128, and every character database that gives these
    their ASCII case mappings, [title (title s) = title s]. *)
Theorem title_idempotent_on_ascii (U : ucd) (s : pystr) :
  ascii_compatible U ->
  Forall (fun c => (c < 128)%N) s ->
  title U (title U s) = title U s.
Proof.
  intros HU Hs. unfold title.
  rewrite (do_title_ascii U [] false s HU Hs).
  rewrite (do_title_ascii U [] false _ HU (ascii_title_ascii false s Hs)).
  apply ascii_title_idempotent.
Qed.

Lemma unicode_excerpt_ascii_compatible : ascii_compatible unicode_excerpt.
Proof.
  assert (H : Forall
                (fun c : N =>
                   is_cased unicode_excerpt c = (ascii_upper c || ascii_lower c)
                   /\ to_title_full unicode_excerpt c
                      = [if ascii_lower c then c - 32 else c]%N
                   /\ to_lower_full unicode_excerpt c
                      = [if ascii_upper c then c + 32 else c]%N)
                (N.of_nat <$> seq 0 128)).
  { apply (bool_decide_unpack _). vm_compute. exact I. }
  intros c Hc. rewrite Forall_forall in H. apply H.
  apply list_elem_of_fmap. exists (N.to_nat c). split; [lia|].
  apply elem_of_seq. lia.
Qed.

Lemma title_idempotent_on_ascii_witness :
  title unicode_excerpt (title unicode_excerpt (py "am alten BAHNHOF 3a"))
  = title unicode_excerpt (py "am alten BAHNHOF 3a").
Proof.
  apply (title_idempotent_on_ascii unicode_excerpt (py "am alten BAHNHOF 3a")).
  - exact unicode_excerpt_ascii_compatible.
  - apply (bool_decide_unpack _). vm_compute. exact I.
Defined.

(** * Further properties *)

#[local] Set Warnings "-clear-no-such-hyp".

(** ** Fetch results that are not envelopes *)

(** X1. A fetch result that is false for [if result:] ([None], an empty object or
    list, zero, the empty string, [false]) ends the component's cycle with
    the "Empty result" error: the state is [None], the attributes are empty,
    [update] returns, and that error is the last thing logged. *)
Theorem falsy_result_is_reported_empty
    (U : ucd) (float_repr : float -> pystr)
    (net : request -> Component.http_reply) (self : Component.TankerkoenigSensor)
    (result : json) :
  fetch_result float_repr net self = Returned result ->
  truthy result = false ->
  let o := Component.update_body U float_repr net self in
  outcome o = Returned tt
  /\ Component.state (final o) = JNull
  /\ Component.extra_state_attributes (final o) = ∅
  /\ trace o
     = trace (Component.get_stations float_repr net (Component._api self)
                (Component._latitude self) (Component._longitude self)
                (Component._radius self) (Component._fuel_type self) tt)
       ++ [Log ERROR "Empty result found when expecting list of stations"].
Proof.
  intros Hf Ht o. subst o. rewrite (update_body_fetched _ _ _ _ _ Hf).
  unfold after_fetch. rewrite Ht. repeat split.
Qed.

Lemma falsy_result_is_reported_empty_witness :
  let o := Component.update_body unicode_excerpt sample_float_repr
             (answering (JObj ∅)) sample_component in
  outcome o = Returned tt
  /\ Component.state (final o) = JNull
  /\ Component.extra_state_attributes (final o) = ∅
  /\ trace o
     = trace (Component.get_stations sample_float_repr (answering (JObj ∅))
                (Component._api sample_component)
                (Component._latitude sample_component)
                (Component._longitude sample_component)
                (Component._radius sample_component)
                (Component._fuel_type sample_component) tt)
       ++ [Log ERROR "Empty result found when expecting list of stations"].
Proof.
  apply (falsy_result_is_reported_empty unicode_excerpt sample_float_repr
           (answering (JObj ∅)) sample_component (JObj ∅));
    reflexivity.
Defined.

(** X2. A fetch result that is true for [if result:] but is no JSON object (a
    non-empty list or string, a non-zero number, [true]) makes the
    component's [update] raise [TypeError]: only [KeyError] is caught around
    [result["stations"]].  The sensor is left cleared and [update] itself
    logs nothing. *)
Theorem non_object_result_raises
    (U : ucd) (float_repr : float -> pystr)
    (net : request -> Component.http_reply) (self : Component.TankerkoenigSensor)
    (result : json) :
  fetch_result float_repr net self = Returned result ->
  truthy result = true ->
  (forall m, result <> JObj m) ->
  let o := Component.update_body U float_repr net self in
  outcome o = Raised TypeError
  /\ Component.state (final o) = JNull
  /\ Component.extra_state_attributes (final o) = ∅
  /\ trace o
     = trace (Component.get_stations float_repr net (Component._api self)
                (Component._latitude self) (Component._longitude self)
                (Component._radius self) (Component._fuel_type self) tt).
Proof.
  intros Hf Ht Hno o. subst o. rewrite (update_body_fetched _ _ _ _ _ Hf).
  unfold after_fetch. rewrite Ht.
  erewrite run_raised.
  2:{ unfold try_except, lift, getitem, raise.
      destruct result as [| | | | | |m]; try reflexivity.
      exfalso. exact (Hno m eq_refl). }
  project_runs. rewrite app_nil_r. repeat split.
Qed.

Lemma non_object_result_raises_witness :
  let o := Component.update_body unicode_excerpt sample_float_repr
             (answering (JList [JObj aral_record])) sample_component in
  outcome o = Raised TypeError
  /\ Component.state (final o) = JNull
  /\ Component.extra_state_attributes (final o) = ∅
  /\ trace o
     = trace (Component.get_stations sample_float_repr
                (answering (JList [JObj aral_record]))
                (Component._api sample_component)
                (Component._latitude sample_component)
                (Component._longitude sample_component)
                (Component._radius sample_component)
                (Component._fuel_type sample_component) tt).
Proof.
  apply (non_object_result_raises unicode_excerpt sample_float_repr
           (answering (JList [JObj aral_record])) sample_component
           (JList [JObj aral_record]));
    try reflexivity.
  intros m H. discriminate H.
Defined.

(** ** Only the first station counts *)

Lemma first_station_value {S} stations k (s : S) :
  first_station stations k s
  = (s, [], stations_0 stations k).
Proof.
  unfold first_station, stations_0, bind, lift, ret, raise.
  destruct (getitem stations (KInt 0)) as [s0|e]; [|reflexivity].
  destruct (getitem s0 (KStr k)); reflexivity.
Qed.

(** When [stations[0]["price"]] cannot be read, [populate] raises before it
    has assigned anything. *)
Lemma populate_unreadable_price {S} U (F : sensor_fields S) stations e (s : S) :
  stations_0 stations "price" = Raised e ->
  populate U F stations s = (s, [], Raised e).
Proof.
  intros H. unfold populate. erewrite run_raised; [reflexivity|].
  rewrite first_station_value, H. reflexivity.
Qed.

(** When it can be read, the state is that price from then on. *)
Lemma populate_readable_price {S} U (F : sensor_fields S)
    (get_state : S -> json) stations p (s : S) :
  (forall v s, get_state (set_state F v s) = v) ->
  (forall k v s, get_state (set_attribute F k v s) = get_state s) ->
  stations_0 stations "price" = Returned p ->
  get_state (final (populate U F stations s)) = p.
Proof.
  intros Hset Hattr Hp. unfold populate.
  erewrite run_returned.
  2:{ rewrite first_station_value, Hp. reflexivity. }
  rewrite final_triple, run_modify.
  match goal with
  | |- get_state (final (?m ?s0)) = _ =>
      assert (H : preserves (kept get_state) m)
  end.
  { unfold first_station. repeat preserves_step; apply Hattr. }
  rewrite (H _). apply Hset.
Qed.

(** X3. The component and sensor.py never look past element 0 of the station
    list: two envelopes whose station lists start with the same record leave
    the sensor in the same state, with the same outcome, whatever follows
    that record (the code neither sorts nor compares prices itself). *)
Theorem update_reads_first_station_only
    (U : ucd) (float_repr : float -> pystr)
    (net1 net2 : request -> Component.http_reply)
    (self : Component.TankerkoenigSensor)
    (m1 m2 : gmap string json) (first : json) (rest1 rest2 : list json) :
  fetch_result float_repr net1 self = Returned (JObj m1) ->
  fetch_result float_repr net2 self = Returned (JObj m2) ->
  m1 !! "stations" = Some (JList (first :: rest1)) ->
  m2 !! "stations" = Some (JList (first :: rest2)) ->
  final (Component.update_body U float_repr net1 self)
  = final (Component.update_body U float_repr net2 self)
  /\ outcome (Component.update_body U float_repr net1 self)
     = outcome (Component.update_body U float_repr net2 self).
Proof.
  intros Hf1 Hf2 Hm1 Hm2.
  rewrite (update_body_fetched _ _ _ _ _ Hf1).
  rewrite (update_body_fetched _ _ _ _ _ Hf2).
  rewrite (after_fetch_stations _ _ _ _ Hm1 eq_refl).
  rewrite (after_fetch_stations _ _ _ _ Hm2 eq_refl).
  project_runs. split; reflexivity.
Qed.

Lemma update_reads_first_station_only_witness :
  final (Component.update_body unicode_excerpt sample_float_repr
           (answering (JObj (envelope true [JObj aral_record])))
           sample_component)
  = final (Component.update_body unicode_excerpt sample_float_repr
             (answering (JObj (envelope false
                                 [JObj aral_record; JObj ∅; JNull])))
             sample_component)
  /\ outcome (Component.update_body unicode_excerpt sample_float_repr
                (answering (JObj (envelope true [JObj aral_record])))
                sample_component)
     = outcome (Component.update_body unicode_excerpt sample_float_repr
                  (answering (JObj (envelope false
                                      [JObj aral_record; JObj ∅; JNull])))
                  sample_component).
Proof.
  apply (update_reads_first_station_only unicode_excerpt sample_float_repr
           (answering (JObj (envelope true [JObj aral_record])))
           (answering (JObj (envelope false [JObj aral_record; JObj ∅; JNull])))
           sample_component
           (envelope true [JObj aral_record])
           (envelope false [JObj aral_record; JObj ∅; JNull])
           (JObj aral_record) [] [JObj ∅; JNull]);
    reflexivity.
Defined.

(** ** No stale reading *)

#[local] Instance adds_known_attributes_preorder {S}
    (get_attributes : S -> gmap string json) :
  PreOrder (adds_known_attributes get_attributes).
Proof.
  split.
  - intros s. unfold adds_known_attributes. set_solver.
  - intros s1 s2 s3. unfold adds_known_attributes. set_solver.
Qed.

Lemma component_fields_add_known k v s :
  k ∈ attribute_names ->
  adds_known_attributes Component._attributes s
    (set_attribute Component.fields k v s).
Proof.
  intros Hk. unfold adds_known_attributes. simpl. rewrite dom_insert.
  set_solver.
Qed.

Lemma legacy_fields_add_known k v s :
  k ∈ attribute_names ->
  adds_known_attributes Legacy._attributes s
    (set_attribute Legacy.fields k v s).
Proof.
  intros Hk. unfold adds_known_attributes. simpl. rewrite dom_insert.
  set_solver.
Qed.

Lemma populate_adds_known {S} U (F : sensor_fields S) get_attributes stations :
  (forall v s, get_attributes (set_state F v s) = get_attributes s) ->
  (forall k v s, k ∈ attribute_names ->
     adds_known_attributes get_attributes s (set_attribute F k v s)) ->
  preserves (adds_known_attributes get_attributes) (populate U F stations).
Proof.
  intros Hs Ha. unfold populate, first_station.
  repeat preserves_step;
    first [ unfold adds_known_attributes; rewrite Hs; set_solver
          | apply Ha; unfold attribute_names; set_solver ].
Qed.

Lemma after_fetch_adds_known U result :
  preserves (adds_known_attributes Component._attributes) (after_fetch U result).
Proof.
  unfold after_fetch. repeat preserves_step.
  - apply preserves_try_except;
      [typeclasses eauto | apply preserves_lift; typeclasses eauto |].
    intros e k H. destruct (isinstance_KeyError e); inversion H; subst.
    repeat preserves_step.
  - apply populate_adds_known; [reflexivity|].
    intros k v s Hk. apply component_fields_add_known, Hk.
Qed.

Lemma after_rest_adds_known U result :
  preserves (adds_known_attributes Legacy._attributes) (after_rest U result).
Proof.
  unfold after_rest. repeat preserves_step.
  - apply preserves_try_except; [typeclasses eauto | |].
    + repeat preserves_step.
    + intros e k H. destruct (isinstance_ValueError e); inversion H; subst.
      repeat preserves_step.
  - apply populate_adds_known; [reflexivity|].
    intros k v s Hk. apply legacy_fields_add_known, Hk.
Qed.

(** Where the state of the component comes from, [s] being cleared. *)
Lemma after_fetch_state U result s :
  Component._state s = JNull ->
  Component._state (final (after_fetch U result s)) = JNull
  \/ exists m stations,
       result = JObj m /\ m !! "stations" = Some stations
       /\ stations_0 stations "price"
          = Returned (Component._state (final (after_fetch U result s))).
Proof.
  intros Hs. unfold after_fetch. destruct (truthy result).
  2:{ left. exact Hs. }
  destruct result as [| | | | | |m];
    try (left; unfold bind, try_except, lift, getitem, raise; exact Hs).
  destruct (m !! "stations") as [stations|] eqn:Hm.
  - erewrite run_returned.
    2:{ unfold try_except, lift, getitem. rewrite Hm. reflexivity. }
    rewrite final_triple. destruct (truthy stations); [|left; exact Hs].
    destruct (stations_0 stations "price") as [p|e] eqn:Hp.
    + right. exists m, stations. split; [reflexivity|]. split; [exact Hm|].
      rewrite Hp. f_equal. symmetry.
      apply (populate_readable_price U Component.fields Component._state);
        [reflexivity | reflexivity | exact Hp].
    + left. rewrite (populate_unreadable_price U _ _ _ _ Hp). exact Hs.
  - erewrite run_returned.
    2:{ unfold try_except, lift, getitem, bind, emit, ret, raise.
        rewrite Hm. simpl. reflexivity. }
    left. exact Hs.
Qed.

(** The same for sensor.py. *)
Lemma after_rest_state U result s :
  Legacy._state s = JNull ->
  Legacy._state (final (after_rest U result s)) = JNull
  \/ exists b m stations,
       result = Some b /\ Legacy.json_loads b = Returned (JObj m)
       /\ m !! "stations" = Some stations
       /\ stations_0 stations "price"
          = Returned (Legacy._state (final (after_rest U result s))).
Proof.
  intros Hs. unfold after_rest. destruct (Legacy.truthy_data result).
  2:{ left. exact Hs. }
  destruct result as [b|].
  2:{ left. unfold bind, try_except, lift, raise. exact Hs. }
  destruct (Legacy.json_loads b) as [j|e] eqn:Hj.
  2:{ left. unfold bind, try_except, lift, raise, emit, ret.
      destruct (isinstance_ValueError e); exact Hs. }
  destruct j as [| | | | | |m];
    try (left; unfold bind, try_except, lift, getitem, raise, ret; exact Hs).
  destruct (m !! "ok") as [ok|] eqn:Hok.
  2:{ left. unfold bind, try_except, lift, getitem, raise, ret.
      simpl. rewrite Hok. exact Hs. }
  destruct (truthy ok) eqn:Htk.
  2:{ left. unfold bind, try_except, lift, getitem, raise, ret.
      simpl. rewrite Hok. simpl. rewrite Htk. exact Hs. }
  destruct (m !! "stations") as [stations|] eqn:Hm.
  2:{ left. unfold bind, try_except, lift, getitem, raise, ret.
      simpl. rewrite Hok. simpl. rewrite Htk, Hm. exact Hs. }
  erewrite run_returned.
  2:{ unfold try_except, bind, lift, getitem, ret, emit. simpl.
      rewrite Hok. simpl. rewrite Htk, Hm. simpl. reflexivity. }
  rewrite final_triple. destruct (truthy stations); [|left; exact Hs].
  destruct (stations_0 stations "price") as [p|e] eqn:Hp.
  - right. exists b, m, stations.
    refine (conj eq_refl (conj Hj (conj Hm _))).
    rewrite Hp. f_equal. symmetry.
    apply (populate_readable_price U Legacy.fields Legacy._state);
      [reflexivity | reflexivity | exact Hp].
  - left. rewrite (populate_unreadable_price U _ _ _ _ Hp). exact Hs.
Qed.

(** X4. After any run of the body of [update], in either module, for every reply
    of the network and whatever the sensor showed before, also when the body
    raises: the state is [None] or the price of the first station of this
    cycle's reply, and every attribute bears one of the six names.  Nothing
    of an earlier cycle survives: the whole run (final sensor, trace and
    outcome) is the same whatever state and attributes (and, in sensor.py,
    whatever stored reply) the sensor held before. *)
Theorem update_shows_nothing_stale
    (U : ucd) (float_repr : float -> pystr)
    (net : request -> Component.http_reply) (self : Component.TankerkoenigSensor)
    (net' : request -> option Legacy.body) (self' : Legacy.TankerkoenigSensor) :
  let s := final (Component.update_body U float_repr net self) in
  let s' := final (Legacy.update_body U net' self') in
  ((Component.state s = JNull
    \/ exists m stations,
         fetch_result float_repr net self = Returned (JObj m)
         /\ m !! "stations" = Some stations
         /\ stations_0 stations "price" = Returned (Component.state s))
   /\ dom (Component.extra_state_attributes s) ⊆ attribute_names)
  /\ ((Legacy.state s' = JNull
       \/ exists b m stations,
            net' (rest_request self') = Some b
            /\ Legacy.json_loads b = Returned (JObj m)
            /\ m !! "stations" = Some stations
            /\ stations_0 stations "price" = Returned (Legacy.state s'))
      /\ dom (Legacy.device_state_attributes s') ⊆ attribute_names)
  /\ (forall (old_state : json) (old_attributes : gmap string json),
        Component.update_body U float_repr net
          (Component.with_attributes old_attributes
             (Component.with_state old_state self))
        = Component.update_body U float_repr net self)
  /\ (forall (old_state : json) (old_attributes : gmap string json)
             (old_data : option Legacy.body),
        Legacy.update_body U net'
          (Legacy.with_rest
             {| Legacy._method := Legacy._method (Legacy.rest self');
                Legacy._resource := Legacy._resource (Legacy.rest self');
                Legacy._verify_ssl := Legacy._verify_ssl (Legacy.rest self');
                Legacy._timeout := Legacy._timeout (Legacy.rest self');
                Legacy.data := old_data |}
             (Legacy.with_attributes old_attributes
                (Legacy.with_state old_state self')))
        = Legacy.update_body U net' self').
Proof.
  intros s s'. subst s s'. split; [|split; [|split]].
  - destruct (fetch_result float_repr net self) as [result|e] eqn:Hf.
    2:{ rewrite (update_body_fetch_raised _ _ _ _ _ Hf), final_triple.
        split; [left; reflexivity|]. simpl. set_solver. }
    rewrite (update_body_fetched _ _ _ _ _ Hf), final_triple. split.
    + destruct (after_fetch_state U result
                  (Component.with_attributes ∅ (Component.with_state JNull self))
                  eq_refl) as [H|(m & stations & -> & Hm & Hp)].
      * left. exact H.
      * right. exists m, stations. repeat split; assumption.
    + pose proof (after_fetch_adds_known U result
                    (Component.with_attributes ∅
                       (Component.with_state JNull self))) as H.
      unfold adds_known_attributes in H. simpl in H.
      unfold Component.extra_state_attributes. set_solver.
  - rewrite legacy_update_body_eq, final_triple. split.
    + destruct (after_rest_state U (net' (rest_request self'))
                  (refreshed net' self') eq_refl)
        as [H|(b & m & stations & Hn & Hj & Hm & Hp)].
      * left. exact H.
      * right. exists b, m, stations. repeat split; assumption.
    + pose proof (after_rest_adds_known U (net' (rest_request self'))
                    (refreshed net' self')) as H.
      unfold adds_known_attributes in H. simpl in H.
      unfold Legacy.device_state_attributes. set_solver.
  - intros old_state old_attributes. unfold Component.update_body.
    rewrite !run_modify. reflexivity.
  - intros old_state old_attributes old_data.
    rewrite !legacy_update_body_eq. reflexivity.
Qed.

(** ** Station lists whose first price cannot be read *)

(** X5. When the station list is true for [if stations:] but
    [stations[0]["price"]] raises (the list is an object, a string or a
    number, its first element is no object, or that object has no price),
    [update] raises that exception before it has assigned anything: the state
    is [None] and the attributes are empty; in both modules. *)
Theorem unreadable_price_raises_cleared
    (U : ucd) (float_repr : float -> pystr)
    (net : request -> Component.http_reply) (self : Component.TankerkoenigSensor)
    (net' : request -> option Legacy.body) (self' : Legacy.TankerkoenigSensor)
    (b : Legacy.body) (m : gmap string json) (ok stations : json) (e : exc) :
  fetch_result float_repr net self = Returned (JObj m) ->
  net' (rest_request self') = Some b ->
  Legacy.text b <> [] ->
  Legacy.json_loads b = Returned (JObj m) ->
  m !! "ok" = Some ok ->
  truthy ok = true ->
  m !! "stations" = Some stations ->
  truthy stations = true ->
  stations_0 stations "price" = Raised e ->
  let o := Component.update_body U float_repr net self in
  let o' := Legacy.update_body U net' self' in
  (outcome o = Raised e
   /\ Component.state (final o) = JNull
   /\ Component.extra_state_attributes (final o) = ∅)
  /\ (outcome o' = Raised e
      /\ Legacy.state (final o') = JNull
      /\ Legacy.device_state_attributes (final o') = ∅).
Proof.
  intros Hf Hn Ht Hj Hok Htk Hm Hts Hp o o'. subst o o'. split.
  - rewrite (update_body_fetched _ _ _ _ _ Hf).
    rewrite (after_fetch_stations _ _ _ _ Hm Hts).
    rewrite (populate_unreadable_price U _ _ _ _ Hp).
    repeat split.
  - rewrite legacy_update_body_eq, Hn.
    rewrite (after_rest_stations U b m _ _ _ Ht Hj Hok Htk Hm Hts).
    rewrite (populate_unreadable_price U _ _ _ _ Hp).
    repeat split.
Qed.

Lemma unreadable_price_raises_cleared_witness :
  let o := Component.update_body unicode_excerpt sample_float_repr
             (answering (JObj (envelope true [JStr (py "Aral")])))
             sample_component in
  let o' := Legacy.update_body unicode_excerpt
              (storing (reply_body true (quoted "Aral") [JStr (py "Aral")]))
              sample_legacy in
  (outcome o = Raised TypeError
   /\ Component.state (final o) = JNull
   /\ Component.extra_state_attributes (final o) = ∅)
  /\ (outcome o' = Raised TypeError
      /\ Legacy.state (final o') = JNull
      /\ Legacy.device_state_attributes (final o') = ∅).
Proof.
  apply (unreadable_price_raises_cleared unicode_excerpt sample_float_repr
           (answering (JObj (envelope true [JStr (py "Aral")])))
           sample_component
           (storing (reply_body true (quoted "Aral") [JStr (py "Aral")]))
           sample_legacy
           (reply_body true (quoted "Aral") [JStr (py "Aral")])
           (envelope true [JStr (py "Aral")])
           (JBool true) (JList [JStr (py "Aral")]) TypeError);
    try reflexivity.
  discriminate.
Defined.

(** ** Keys that sensor.py does not guard *)

(** X6. sensor.py catches [ValueError] only.  A reply that parses to an object
    without "ok", or with a true "ok" and without "stations", makes [update]
    raise [KeyError] for that key; the sensor is left cleared and nothing is
    logged at warning or error level. *)
Theorem legacy_missing_key_raises
    (U : ucd) (net : request -> option Legacy.body)
    (self : Legacy.TankerkoenigSensor)
    (b : Legacy.body) (m : gmap string json) (k : string) :
  net (rest_request self) = Some b ->
  Legacy.text b <> [] ->
  Legacy.json_loads b = Returned (JObj m) ->
  (m !! "ok" = None /\ k = "ok")
  \/ (exists ok, m !! "ok" = Some ok /\ truthy ok = true
                 /\ m !! "stations" = None /\ k = "stations") ->
  let o := Legacy.update_body U net self in
  outcome o = Raised (KeyError (KStr k))
  /\ Legacy.state (final o) = JNull
  /\ Legacy.device_state_attributes (final o) = ∅
  /\ logged_at WARNING (trace o) = false
  /\ logged_at ERROR (trace o) = false.
Proof.
  intros Hn Ht Hj Hk o. subst o. rewrite legacy_update_body_eq, Hn.
  assert (Ha : forall s, after_rest U (Some b) s
                         = (s, [], Raised (KeyError (KStr k)))).
  { intros s. unfold after_rest. simpl.
    destruct (Legacy.text b); [contradiction|].
    erewrite run_raised; [reflexivity|].
    unfold try_except, bind, lift, getitem, raise, ret. rewrite Hj. simpl.
    destruct Hk as [[Hok ->]|(ok & Hok & Htk & Hm & ->)].
    - rewrite Hok. reflexivity.
    - rewrite Hok. simpl. rewrite Htk, Hm. reflexivity. }
  rewrite Ha. repeat split.
Qed.

Lemma legacy_missing_key_raises_witness :
  let b := {| Legacy.text :=
                py "{" ++ quoted "stations" ++ py ": [" ++ aral_text ++ py "]}";
              Legacy.json_loads :=
                Returned (JObj {[ "stations" := JList [JObj aral_record] ]}) |} in
  let o := Legacy.update_body unicode_excerpt (storing b) sample_legacy in
  outcome o = Raised (KeyError (KStr "ok"))
  /\ Legacy.state (final o) = JNull
  /\ Legacy.device_state_attributes (final o) = ∅
  /\ logged_at WARNING (trace o) = false
  /\ logged_at ERROR (trace o) = false.
Proof.
  intros b.
  apply (legacy_missing_key_raises unicode_excerpt (storing b) sample_legacy
           b {[ "stations" := JList [JObj aral_record] ]} "ok");
    try reflexivity.
  - discriminate.
  - left. split; reflexivity.
Defined.

(** ** The two error messages of [get_stations] *)

(** X7. A body that is not JSON is reported by the first [except] clause that
    matches the exception: as "Error fetching data" when [response.json()]
    raises the [requests] flavour of [JSONDecodeError] (a
    [RequestException]), as "Error parsing data" when it raises the plain
    [ValueError] flavour.  Either way one request was sent, one error is
    logged and [None] is returned. *)
Theorem parse_failure_message_follows_class
    (float_repr : float -> pystr) (net : request -> Component.http_reply)
    (api : Component.TankerkoenigApi) (latitude longitude radius : number)
    (fuel_type : pystr) (S : Type) (s : S) (code : Z) (from_requests : bool) :
  net (get_request (Component.resource float_repr api latitude longitude
                      radius fuel_type))
  = Component.Response code (Raised (JSONDecodeError from_requests)) ->
  ~ 400 <= code < 600 ->
  Component.get_stations float_repr net api latitude longitude radius
    fuel_type s
  = (s,
     [HttpRequest (get_request (Component.resource float_repr api latitude
                                  longitude radius fuel_type));
      Log ERROR (if from_requests
                 then "Error fetching data: %s failed with %s"
                 else "Error parsing data: %s failed with %s")],
     Returned JNull).
Proof.
  intros Hn Hcode.
  unfold Component.get_stations, try_except, bind, Component.requests_get,
    Component.raise_for_status, emit, raise, ret, lift.
  cbv zeta. unfold get_request in Hn. rewrite Hn. simpl.
  replace ((400 <=? code) && (code <? 600)) with false.
  - destruct from_requests; reflexivity.
  - symmetry. apply andb_false_iff.
    destruct (Z.leb_spec 400 code); [|left; reflexivity].
    right. apply Z.ltb_ge. lia.
Qed.

Lemma parse_failure_message_follows_class_witness :
  Component.get_stations sample_float_repr
    (fun _ => Component.Response 200 (Raised (JSONDecodeError false)))
    (Component._api sample_component)
    (NumFloat 50.1%float) (NumFloat 8.6%float) (NumFloat 1.5%float)
    (py "e5") tt
  = (tt,
     [HttpRequest (get_request (Component.resource sample_float_repr
                                  (Component._api sample_component)
                                  (NumFloat 50.1%float) (NumFloat 8.6%float)
                                  (NumFloat 1.5%float) (py "e5")));
      Log ERROR "Error parsing data: %s failed with %s"],
     Returned JNull).
Proof.
  apply (parse_failure_message_follows_class sample_float_repr
           (fun _ => Component.Response 200 (Raised (JSONDecodeError false)))
           (Component._api sample_component)
           (NumFloat 50.1%float) (NumFloat 8.6%float) (NumFloat 1.5%float)
           (py "e5") unit tt 200 false).
  - reflexivity.
  - lia.
Defined.

(** ** Values go into the query unescaped *)

Lemma occurrences_app c a b :
  occurrences c (a ++ b) = (occurrences c a + occurrences c b)%nat.
Proof. unfold occurrences. rewrite filter_app, length_app. reflexivity. Qed.

Lemma split_on_length sep s :
  length (split_on sep s) = S (occurrences sep s).
Proof.
  induction s as [|c s IH]; [reflexivity|].
  simpl. unfold occurrences in *. destruct (N.eqb_spec c sep) as [->|Hne].
  - rewrite filter_cons_True by reflexivity. simpl. rewrite IH. reflexivity.
  - rewrite filter_cons_False by exact Hne.
    destruct (split_on sep s) as [|field fields]; [discriminate IH|].
    simpl in *. exact IH.
Qed.

(** X8. [get_stations] and sensor.py's [setup_platform] put the configured values
    into the URL as they are.  Cut at every [&], the URL has six fields plus
    one more for every [&] inside the API key, the formatted latitude,
    longitude and radius, and the fuel type: exactly six when none of them
    contains [&], more when one does. *)
Theorem query_fields_count_ampersands
    (float_repr : float -> pystr)
    (api : Component.TankerkoenigApi) (latitude longitude radius : number)
    (fuel_type : pystr) (cfg : Legacy.config) :
  length (split_on ampersand
            (Component.resource float_repr api latitude longitude radius
               fuel_type))
  = (6 + occurrences ampersand (Component._api_key api)
     + occurrences ampersand (format_number float_repr latitude)
     + occurrences ampersand (format_number float_repr longitude)
     + occurrences ampersand (format_number float_repr radius)
     + occurrences ampersand fuel_type)%nat
  /\ Forall
       (fun self =>
          length (split_on ampersand (Legacy._resource (Legacy.rest self)))
          = (6 + occurrences ampersand (Legacy.CONF_API_KEY cfg)
             + occurrences ampersand (format_number float_repr latitude)
             + occurrences ampersand (format_number float_repr longitude)
             + occurrences ampersand
                 (format_number float_repr (Legacy.CONF_RADIUS cfg))
             + occurrences ampersand (Legacy.CONF_FUEL_TYPE cfg))%nat)
       (Legacy.setup_platform float_repr latitude longitude cfg).
Proof.
  split.
  - rewrite split_on_length. unfold Component.resource.
    rewrite !occurrences_app.
    change (occurrences ampersand
              (py "https://creativecommons.tankerkoenig.de/json/list.php"))
      with 0%nat.
    change (occurrences ampersand (py "?apikey=")) with 0%nat.
    change (occurrences ampersand (py "&lat=")) with 1%nat.
    change (occurrences ampersand (py "&lng=")) with 1%nat.
    change (occurrences ampersand (py "&rad=")) with 1%nat.
    change (occurrences ampersand (py "&type=")) with 1%nat.
    change (occurrences ampersand (py "&sort=price")) with 1%nat.
    lia.
  - unfold Legacy.setup_platform. constructor; [|constructor].
    unfold Legacy.new_sensor. cbn [Legacy._resource Legacy.rest].
    rewrite split_on_length.
    rewrite !occurrences_app.
    change (occurrences ampersand
              (py "https://creativecommons.tankerkoenig.de/json/list.php"))
      with 0%nat.
    change (occurrences ampersand (py "?lat=")) with 0%nat.
    change (occurrences ampersand (py "&lng=")) with 1%nat.
    change (occurrences ampersand (py "&rad=")) with 1%nat.
    change (occurrences ampersand (py "&sort=price")) with 1%nat.
    change (occurrences ampersand (py "&type=")) with 1%nat.
    change (occurrences ampersand (py "&apikey=")) with 1%nat.
    lia.
Qed.

(** ** The two modules read an envelope alike *)

Section InStep.
Context {S T : Type} (R : S -> T -> Prop).

Lemma in_step_lift {A} (r : result A) : in_step R (lift r) (lift r).
Proof. intros s t H. destruct r; repeat split; exact H. Qed.

Lemma in_step_modify f g :
  (forall s t, R s t -> R (f s) (g t)) -> in_step R (modify f) (modify g).
Proof. intros Hfg s t H. repeat split. apply Hfg, H. Qed.

Lemma in_step_bind {A B} (m : M S A) (m' : M T A)
    (k : A -> M S B) (k' : A -> M T B) :
  in_step R m m' -> (forall a, in_step R (k a) (k' a)) ->
  in_step R (bind m k) (bind m' k').
Proof.
  intros Hm Hk s t H. unfold bind.
  destruct (Hm s t H) as (H1 & H2 & H3).
  destruct (m s) as [[s1 t1] r1], (m' t) as [[s1' t1'] r1'].
  unfold final, trace, outcome in H1, H2, H3. simpl in H1, H2, H3. subst.
  destruct r1' as [a|e]; [|repeat split; exact H1].
  destruct (Hk a s1 s1' H1) as (H4 & H5 & H6).
  destruct (k a s1) as [[s2 t2] r2], (k' a s1') as [[s2' t2'] r2'].
  unfold final, trace, outcome in *. simpl in *. subst. repeat split. exact H4.
Qed.
End InStep.

Lemma populate_in_step {S T} (R : S -> T -> Prop) U
    (F : sensor_fields S) (G : sensor_fields T) stations :
  (forall v s t, R s t -> R (set_state F v s) (set_state G v t)) ->
  (forall k v s t, R s t -> R (set_attribute F k v s) (set_attribute G k v t)) ->
  in_step R (populate U F stations) (populate U G stations).
Proof.
  intros Hs Ha. unfold populate, first_station.
  repeat first
    [ apply in_step_bind; [|intros ?]
    | apply in_step_lift
    | apply in_step_modify; intros ? ? ?;
      first [apply Hs; assumption | apply Ha; assumption] ].
Qed.

(** X9. On a reply that parses to the same object, with a true "ok" and a
    "stations" entry of any shape, the component and sensor.py end a cycle
    alike: the same state, the same attributes, and the same outcome (both
    return, or both raise the same exception). *)
Theorem modules_agree_when_ok
    (U : ucd) (float_repr : float -> pystr)
    (net : request -> Component.http_reply) (self : Component.TankerkoenigSensor)
    (net' : request -> option Legacy.body) (self' : Legacy.TankerkoenigSensor)
    (b : Legacy.body) (m : gmap string json) (ok stations : json) :
  fetch_result float_repr net self = Returned (JObj m) ->
  net' (rest_request self') = Some b ->
  Legacy.text b <> [] ->
  Legacy.json_loads b = Returned (JObj m) ->
  m !! "ok" = Some ok ->
  truthy ok = true ->
  m !! "stations" = Some stations ->
  let o := Component.update_body U float_repr net self in
  let o' := Legacy.update_body U net' self' in
  component_reading (final o) = legacy_reading (final o')
  /\ outcome o = outcome o'.
Proof.
  intros Hf Hn Ht Hj Hok Htk Hm o o'. subst o o'.
  rewrite (update_body_fetched _ _ _ _ _ Hf), legacy_update_body_eq, Hn.
  project_runs.
  destruct (truthy stations) eqn:Hts.
  - rewrite (after_fetch_stations _ _ _ _ Hm Hts).
    rewrite (after_rest_stations U b m _ _ _ Ht Hj Hok Htk Hm Hts).
    project_runs.
    destruct (populate_in_step
                (fun s s' => component_reading s = legacy_reading s')
                U Component.fields Legacy.fields stations
                (fun v s t H => f_equal (fun r => (v, r.2)) H)
                (fun k v s t H => f_equal (fun r => (r.1, <[k := v]> r.2)) H)
                (Component.with_attributes ∅ (Component.with_state JNull self))
                (refreshed net' self') eq_refl) as (H1 & _ & H3).
    split; assumption.
  - assert (Ha : forall s, after_fetch U (JObj m) s = (s, [], Returned tt)).
    { intros s. unfold after_fetch. rewrite truthy_object.
      2:{ intros ->. discriminate Hm. }
      erewrite run_returned.
      2:{ unfold try_except, lift, getitem. rewrite Hm. reflexivity. }
      rewrite Hts. reflexivity. }
    assert (Hb : forall s, after_rest U (Some b) s
                = (s, [Log DEBUG "Received stations: %s"], Returned tt)).
    { intros s. unfold after_rest. simpl.
      destruct (Legacy.text b); [contradiction|].
      erewrite run_returned.
      2:{ unfold try_except, bind, lift, getitem, ret, emit. rewrite Hj.
          simpl. rewrite Hok. simpl. rewrite Htk, Hm. simpl. reflexivity. }
      rewrite Hts. reflexivity. }
    rewrite Ha, Hb. split; reflexivity.
Qed.

Lemma modules_agree_when_ok_witness :
  let o := Component.update_body unicode_excerpt sample_float_repr
             (answering (JObj (envelope true [JObj {[ "price" := JInt 1 ]}])))
             sample_component in
  let o' := Legacy.update_body unicode_excerpt
              (storing (reply_body true
                          (py "{" ++ quoted "price" ++ py ": 1}")
                          [JObj {[ "price" := JInt 1 ]}]))
              sample_legacy in
  component_reading (final o) = legacy_reading (final o')
  /\ outcome o = outcome o'.
Proof.
  apply (modules_agree_when_ok unicode_excerpt sample_float_repr
           (answering (JObj (envelope true [JObj {[ "price" := JInt 1 ]}])))
           sample_component
           (storing (reply_body true (py "{" ++ quoted "price" ++ py ": 1}")
                       [JObj {[ "price" := JInt 1 ]}]))
           sample_legacy
           (reply_body true (py "{" ++ quoted "price" ++ py ": 1}")
              [JObj {[ "price" := JInt 1 ]}])
           (envelope true [JObj {[ "price" := JInt 1 ]}])
           (JBool true) (JList [JObj {[ "price" := JInt 1 ]}]));
    try reflexivity.
  discriminate.
Defined.

(** ** Calls that the throttle lets through *)

Lemma lets_through_spec {S} (th : throttled S) now :
  lets_through th now ->
  (match last_call th with None => true | Some _ => false end
   || match last_call th with
      | Some t => MIN_TIME_BETWEEN_UPDATES <? now - t
      | None => false
      end) = true.
Proof.
  unfold lets_through. destruct (last_call th) as [t|]; [|reflexivity].
  intros H. simpl. apply Z.ltb_lt, H.
Qed.

(** A call that is let through is a run of the method; the time is recorded
    when the method returns and left as it was when it raises. *)
Lemma Throttle_runs {S} (method : M S unit) now_check now_done
    (th : throttled S) :
  lets_through th now_check ->
  Throttle MIN_TIME_BETWEEN_UPDATES method now_check now_done th
  = ({| host := final (method (host th));
        last_call := match outcome (method (host th)) with
                     | Returned _ => Some now_done
                     | Raised _ => last_call th
                     end |},
     trace (method (host th)),
     outcome (method (host th))).
Proof.
  intros H. unfold Throttle. rewrite run_get, (lets_through_spec th _ H).
  unfold bind, zoom, modify.
  destruct (method (host th)) as [[h t] [[]|e]]; simpl.
  - rewrite app_nil_r. reflexivity.
  - reflexivity.
Qed.

Lemma fetch_request_same_config float_repr s s' :
  same_config s s' -> fetch_request float_repr s' = fetch_request float_repr s.
Proof.
  intros (Ha & _ & Hla & Hlo & Hr & Hf). unfold fetch_request.
  rewrite Ha, Hla, Hlo, Hr, Hf. reflexivity.
Qed.

Lemma rest_request_same_endpoint s s' :
  same_endpoint s s' -> rest_request s' = rest_request s.
Proof.
  intros (_ & Hm & Hr & Hv & Ht). unfold rest_request.
  rewrite Hm, Hr, Hv, Ht. reflexivity.
Qed.

(** X10. A call of [update] that the throttle lets through (the first call of a
    sensor, or one more than ten minutes after the last call that ran) sends
    exactly one request, whatever the network answers and whether the body
    returns or raises; in both modules. *)
Theorem let_through_update_sends_one_request
    (U : ucd) (float_repr : float -> pystr)
    (net : request -> Component.http_reply)
    (th : throttled Component.TankerkoenigSensor)
    (net' : request -> option Legacy.body)
    (th' : throttled Legacy.TankerkoenigSensor)
    (now_check now_done : Z) :
  lets_through th now_check ->
  lets_through th' now_check ->
  requests_of (trace (Component.update U float_repr net now_check now_done th))
  = [fetch_request float_repr (host th)]
  /\ requests_of (trace (Legacy.update U net' now_check now_done th'))
     = [rest_request (host th')].
Proof.
  intros H H'. unfold Component.update, Legacy.update.
  rewrite (Throttle_runs _ _ _ _ H), (Throttle_runs _ _ _ _ H').
  project_runs. split.
  - apply component_update_body_requests.
  - apply legacy_update_body_requests.
Qed.

Lemma let_through_update_sends_one_request_witness :
  requests_of
    (trace (Component.update unicode_excerpt sample_float_repr
              (fun _ => Component.Failed) 700000000 700000001
              {| host := sample_component; last_call := Some 1000000 |}))
  = [fetch_request sample_float_repr sample_component]
  /\ requests_of
       (trace (Legacy.update unicode_excerpt (fun _ => None)
                 700000000 700000001
                 {| host := sample_legacy; last_call := None |}))
     = [rest_request sample_legacy].
Proof.
  apply (let_through_update_sends_one_request unicode_excerpt
           sample_float_repr (fun _ => Component.Failed)
           {| host := sample_component; last_call := Some 1000000 |}
           (fun _ => None) {| host := sample_legacy; last_call := None |}
           700000000 700000001).
  - unfold lets_through, MIN_TIME_BETWEEN_UPDATES. simpl. lia.
  - exact I.
Defined.

(** X11. When the body of [update] raises on the first call of a sensor, no time
    is recorded: the next call, however soon, is let through and sends the
    request again; in both modules. *)
Theorem raising_first_update_is_retried
    (U : ucd) (float_repr : float -> pystr)
    (net1 net2 : request -> Component.http_reply)
    (th : throttled Component.TankerkoenigSensor)
    (net1' net2' : request -> option Legacy.body)
    (th' : throttled Legacy.TankerkoenigSensor)
    (check1 done1 check2 done2 : Z) (e e' : exc) :
  last_call th = None ->
  last_call th' = None ->
  outcome (Component.update U float_repr net1 check1 done1 th) = Raised e ->
  outcome (Legacy.update U net1' check1 done1 th') = Raised e' ->
  requests_of
    (trace (Component.update U float_repr net2 check2 done2
              (final (Component.update U float_repr net1 check1 done1 th))))
  = [fetch_request float_repr (host th)]
  /\ requests_of
       (trace (Legacy.update U net2' check2 done2
                 (final (Legacy.update U net1' check1 done1 th'))))
     = [rest_request (host th')].
Proof.
  intros Hl Hl' Ho Ho'.
  assert (H1 : lets_through th check1) by (unfold lets_through; rewrite Hl; exact I).
  assert (H1' : lets_through th' check1)
    by (unfold lets_through; rewrite Hl'; exact I).
  unfold Component.update, Legacy.update in *.
  rewrite (Throttle_runs _ _ _ _ H1) in Ho |- *.
  rewrite (Throttle_runs _ _ _ _ H1') in Ho' |- *.
  rewrite outcome_triple in Ho. rewrite outcome_triple in Ho'.
  rewrite Ho, Ho', Hl, Hl'.
  project_runs. split.
  - rewrite Throttle_runs by exact I. project_runs.
    rewrite component_update_body_requests. simpl host. f_equal.
    apply fetch_request_same_config, component_update_body_keeps.
  - rewrite Throttle_runs by exact I. project_runs.
    rewrite legacy_update_body_requests. simpl host. f_equal.
    apply rest_request_same_endpoint, legacy_update_body_keeps.
Qed.

Lemma raising_first_update_is_retried_witness :
  let bad := JObj (envelope true [JObj {[ "price" := JInt 1 ]}]) in
  let bad' := reply_body true (py "{" ++ quoted "price" ++ py ": 1}")
                [JObj {[ "price" := JInt 1 ]}] in
  let th := {| host := sample_component; last_call := None |} in
  let th' := {| host := sample_legacy; last_call := None |} in
  requests_of
    (trace (Component.update unicode_excerpt sample_float_repr
              (answering bad) 30000000 30000001
              (final (Component.update unicode_excerpt sample_float_repr
                        (answering bad) 0 1 th))))
  = [fetch_request sample_float_repr sample_component]
  /\ requests_of
       (trace (Legacy.update unicode_excerpt (storing bad') 30000000 30000001
                 (final (Legacy.update unicode_excerpt (storing bad') 0 1 th'))))
     = [rest_request sample_legacy].
Proof.
  intros bad bad' th th'.
  apply (raising_first_update_is_retried unicode_excerpt sample_float_repr
           (answering bad) (answering bad) th (storing bad') (storing bad') th'
           0 1 30000000 30000001
           (KeyError (KStr "brand")) (KeyError (KStr "brand")));
    reflexivity.
Defined.

(** ** A sensor over many polls *)

Lemma component_update_requests U float_repr net now_check now_done th :
  requests_of (trace (Component.update U float_repr net now_check now_done th))
  = []
  \/ requests_of (trace (Component.update U float_repr net now_check now_done th))
     = [fetch_request float_repr (host th)].
Proof.
  unfold Component.update.
  destruct (last_call th) as [t|] eqn:Hl.
  - destruct (Z.lt_ge_cases MIN_TIME_BETWEEN_UPDATES (now_check - t)) as [H|H].
    + right. rewrite Throttle_runs by (unfold lets_through; rewrite Hl; exact H).
      project_runs. apply component_update_body_requests.
    + left. rewrite (Throttle_suppresses _ _ _ _ th t Hl H). reflexivity.
  - right. rewrite Throttle_runs by (unfold lets_through; rewrite Hl; exact I).
    project_runs. apply component_update_body_requests.
Qed.

(** X12. However often and whenever the host polls, with whatever replies, and
    whether calls return or raise: every request the sensor sends is the one
    request fixed by its configuration, there is at most one request per
    poll, and the configuration is the same at the end. *)
Theorem polling_repeats_one_request
    (U : ucd) (float_repr : float -> pystr)
    (calls : list ((request -> Component.http_reply) * Z * Z))
    (th : throttled Component.TankerkoenigSensor) :
  let r := component_polls U float_repr calls th in
  Forall (fun q => q = fetch_request float_repr (host th)) (requests_of r.2)
  /\ (length (requests_of r.2) <= length calls)%nat
  /\ same_config (host th) (host r.1).
Proof.
  revert th. induction calls as [|[[net c] d] calls IH]; intros th.
  - simpl. split; [constructor | split; [lia | reflexivity]].
  - simpl.
    set (o := Component.update U float_repr net c d th).
    destruct (IH (final o)) as (Hall & Hlen & Hcfg).
    assert (Hkeep : same_config (host th) (host (final o))).
    { apply (Throttle_keeps same_config), component_update_body_keeps. }
    rewrite (fetch_request_same_config float_repr _ _ Hkeep) in Hall.
    rewrite requests_of_app, length_app.
    split; [|split].
    + apply Forall_app. split; [|exact Hall].
      destruct (component_update_requests U float_repr net c d th) as [H|H];
        fold o in H; rewrite H; repeat constructor.
    + destruct (component_update_requests U float_repr net c d th) as [H|H];
        fold o in H; rewrite H; simpl; lia.
    + etransitivity; eassumption.
Qed.

(** ** Setting the platform up *)

(** X13. The component's [setup_platform] makes one sensor.  It bears the
    configured name, shows no state and no attributes, and its first
    [update] is not throttled: it sends the list query with the configured
    API key, radius and fuel type and the host's latitude and longitude. *)
Theorem first_update_after_setup
    (U : ucd) (float_repr : float -> pystr)
    (net : request -> Component.http_reply)
    (hass_latitude hass_longitude : number) (cfg : Component.config)
    (now_check now_done : Z) :
  exists sensor,
    Component.setup_platform hass_latitude hass_longitude cfg = [sensor]
    /\ Component.name sensor = Component.CONF_NAME cfg
    /\ Component.state sensor = JNull
    /\ Component.extra_state_attributes sensor = ∅
    /\ requests_of
         (trace (Component.update U float_repr net now_check now_done
                   {| host := sensor; last_call := None |}))
       = [get_request
            (ENDPOINT ++ py "?"
             ++ query_string
                  (list_query (Component.CONF_API_KEY cfg)
                     (format_number float_repr hass_latitude)
                     (format_number float_repr hass_longitude)
                     (format_number float_repr (Component.CONF_RADIUS cfg))
                     (Component.CONF_FUEL_TYPE cfg)))].
Proof.
  eexists. split; [reflexivity|]. repeat split.
  unfold Component.update. rewrite Throttle_runs by exact I. project_runs.
  rewrite component_update_body_requests.
  unfold fetch_request, get_request, Component.resource, ENDPOINT,
    list_query, query_string.
  simpl. repeat rewrite <- app_assoc. reflexivity.
Qed.

(** ** Title-casing changes case only *)

Lemma ascii_fold_title_char p c :
  ascii_fold (ascii_title_char p c) = ascii_fold c.
Proof. unfold ascii_fold. destruct p; ascii_cases c. Qed.

Lemma ascii_fold_title p s :
  map ascii_fold (ascii_title p s) = map ascii_fold s.
Proof.
  revert p. induction s as [|c s IH]; intros p; [reflexivity|].
  simpl. rewrite ascii_fold_title_char, IH. reflexivity.
Qed.

(** X14. On ASCII text, title-casing a brand or street changes nothing but the
    case of letters: the result has the same length and, with capitals
    folded to small letters, the same characters. *)
Theorem title_changes_case_only (U : ucd) (s : pystr) :
  ascii_compatible U ->
  Forall (fun c => (c < 128)%N) s ->
  map ascii_fold (title U s) = map ascii_fold s
  /\ length (title U s) = length s.
Proof.
  intros HU Hs. unfold title. rewrite (do_title_ascii U [] false s HU Hs).
  assert (H : map ascii_fold (ascii_title false s) = map ascii_fold s)
    by apply ascii_fold_title.
  split; [exact H|].
  apply (f_equal length) in H. rewrite !length_map in H. exact H.
Qed.

Lemma title_changes_case_only_witness :
  map ascii_fold (title unicode_excerpt (py "HAUPTSTRASSE 12a"))
  = map ascii_fold (py "HAUPTSTRASSE 12a")
  /\ length (title unicode_excerpt (py "HAUPTSTRASSE 12a"))
     = length (py "HAUPTSTRASSE 12a").
Proof.
  apply (title_changes_case_only unicode_excerpt (py "HAUPTSTRASSE 12a")).
  - exact unicode_excerpt_ascii_compatible.
  - apply (bool_decide_unpack _). vm_compute. exact I.
Defined.
